(** * foundation_lib: process entry points and termination handlers (main.c)

    A shallow embedding of [src/foundation/main.c].  The file consists of
    straight-line glue code: every interesting action is a call into another
    module of the library, into the application, or into the operating
    system.  A C function is therefore embedded as a finite tree of such
    calls ([prog]), whose branches are selected by the values the calls
    return.  Running a tree against an arbitrary implementation of the
    callees ([handler]) yields the function's return value together with the
    ordered list of calls it made and what each returned ([event]). *)

From Stdlib Require Import ZArith List String Bool Lia.
Import ListNotations.
Open Scope string_scope.
Open Scope Z_scope.

Set Implicit Arguments.

(** ** Build configuration and platform headers *)

(** The preprocessor symbols main.c branches on.  Each is 0 or 1 for a given
    build; no relation between them is assumed. *)
Record build : Type := Build {
  FOUNDATION_PLATFORM_WINDOWS : bool;
  FOUNDATION_PLATFORM_ANDROID : bool;
  FOUNDATION_PLATFORM_POSIX   : bool;
  FOUNDATION_PLATFORM_MACOSX  : bool;
  FOUNDATION_PLATFORM_IOS     : bool;
  BUILD_DEBUG                 : bool
}.

(** Numeric constants and the one value type main.c takes from headers that
    are not part of src/ (the Windows SDK, <signal.h>, foundation/types.h).
    They are kept as parameters of the development. *)
Class headers : Type := Headers {
  CTRL_C_EVENT        : Z;
  CTRL_BREAK_EVENT    : Z;
  CTRL_CLOSE_EVENT    : Z;
  CTRL_LOGOFF_EVENT   : Z;
  CTRL_SHUTDOWN_EVENT : Z;
  SHUTDOWN_NORETRY    : Z;
  SIGKILL : Z;
  SIGTERM : Z;
  SIGQUIT : Z;
  SIGINT  : Z;
  SIGPIPE : Z;
  version_t : Type
}.

(** A C compiler rejects a [switch] with two equal case labels. *)
Definition console_labels_distinct `{headers} : Prop :=
  NoDup [CTRL_C_EVENT; CTRL_BREAK_EVENT; CTRL_CLOSE_EVENT;
         CTRL_LOGOFF_EVENT; CTRL_SHUTDOWN_EVENT].

Definition signal_labels_distinct `{headers} : Prop :=
  NoDup [SIGKILL; SIGTERM; SIGQUIT; SIGINT].

(** The values of the Windows SDK (wincon.h, winbase.h) and of Linux
    <signal.h>; the version is kept as a number. *)
Definition sdk_headers : headers :=
  {| CTRL_C_EVENT := 0; CTRL_BREAK_EVENT := 1; CTRL_CLOSE_EVENT := 2;
     CTRL_LOGOFF_EVENT := 5; CTRL_SHUTDOWN_EVENT := 6;
     SHUTDOWN_NORETRY := 1;
     SIGKILL := 9; SIGTERM := 15; SIGQUIT := 3; SIGINT := 2; SIGPIPE := 13;
     version_t := Z |}.

(** ** Values passed to and from the callees *)

(** Addresses of storage; 0 is the null pointer. *)
Definition ptr := Z.

(** Functions of main.c and of the application whose address is taken. *)
Inductive fnptr : Type :=
| FN_main_run
| FN_sighandler
| FN__main_console_handler.

(** Event identifiers and configuration hashes are opaque tokens. *)
Inductive event_id : Type :=
| FOUNDATIONEVENT_TERMINATE
| COREEVENT_TERMINATE.

Inductive hash_t : Type :=
| HASH_APPLICATION
| HASH_DAEMON
| _HASH_APPLICATION
| _HASH_BSDUTILITY.

(** The address of an application supplied dump callback. *)
Definition crash_dump_callback_fn := Z.

(** A CFBundleRef. *)
Definition CFBundleRef := Z.

Section Main.
Context {hdr : headers}.

(** The fields of [application_t] main.c reads.  [short_name] and
    [dump_callback] are pointers that may be null. *)
Record application_t : Type := Application {
  short_name    : option string;
  version       : version_t;
  dump_callback : option crash_dump_callback_fn
}.

(** ** Calls

    One constructor per function main.c calls (and per global it reads),
    indexed by the type of what comes back.  Results the source discards
    are typed [unit].  [if( _bundle ) CFRelease( _bundle )] is one read of
    the global; the descriptor [environment_application] points to is
    constant and is taken as a value. *)
Inductive call : Type -> Type :=
(* foundation/main.h, implemented by the application *)
| main_initialize : call Z
| main_run (arg : ptr) : call Z
| main_shutdown : call unit
(* foundation/android.h *)
| android_initialize (app : ptr) : call Z
| android_shutdown : call unit
(* configuration, logging, events, threads *)
| config_bool (section key : hash_t) : call bool
| app_config_bool (section key : hash_t) : call bool
| log_infof (format : string) (s : string) (d : Z) : call unit
| system_post_event (id : event_id) : call unit
| system_event_post (id : event_id) : call unit
| thread_sleep (milliseconds : Z) : call unit
| thread_set_main : call unit
(* Windows; GetProcessShutdownParameters receives the current contents of
   its two out-parameters and returns their contents after the call *)
| GetProcessShutdownParameters (level flags : Z) : call (Z * Z)
| SetProcessShutdownParameters (level flags : Z) : call unit
| SetConsoleCtrlHandler (routine : fnptr) (add : bool) : call unit
(* POSIX; sigaction_SIG_IGN sig stands for sigaction( sig, &action, 0 ) on a
   zeroed action whose sa_handler is SIG_IGN *)
| signal (sig : Z) (handler : fnptr) : call unit
| sigaction_SIG_IGN (sig : Z) : call unit
(* environment, strings, crash guard *)
| environment_application : call application_t
| string_clone (str : string) : call ptr
| string_append (str : ptr) (suffix : string) : call ptr
| version_to_string_static (v : version_t) : call string
| string_deallocate (str : ptr) : call unit
| crash_guard_set (callback : crash_dump_callback_fn) (name : ptr) : call unit
| crash_guard (fn : fnptr) (arg : ptr)
              (callback : option crash_dump_callback_fn) (name : ptr) : call Z
(* macOS and iOS *)
| _app_start_main_ns_thread (argc : Z) (argv : ptr) : call unit
| NSApplicationMain (argc : Z) (argv : ptr) : call Z
| UIApplicationMain (argc : Z) (argv : ptr)
                    (principalClassName delegateClassName : ptr) : call Z
| app_main (arg : ptr) : call Z
| read__bundle : call (option CFBundleRef)
| CFRelease (cf : CFBundleRef) : call unit
| _app_main_pre_loop : call unit
| app_reset_frame_time : call unit
| app_pump_events : call unit
| _app_main_post_loop : call unit
| core_terminate_services : call unit
| app_exit : call unit
| _app_post_exit : call unit
| read__invoke_argv : call ptr
| array_deallocate (array : ptr) : call unit
| core_shutdown : call unit
(* iOS: the global function pointer app_open_url, and a call through it *)
| read_app_open_url : call (option Z)
| call_app_open_url (fn : Z) (url source_app : string) (nsurl : ptr) : call bool.

(** ** Programs *)

Inductive prog (R : Type) : Type :=
| Ret (r : R)
| Do (X : Type) (c : call X) (k : X -> prog R).

Arguments Ret {R} r.
Arguments Do {R X} c k.

Fixpoint bind {A B : Type} (p : prog A) (f : A -> prog B) : prog B :=
  match p with
  | Ret a => f a
  | Do c k => Do c (fun x => bind (k x) f)
  end.

Definition perform {X : Type} (c : call X) : prog X := Do c Ret.

(** ** Executions *)

(** A call together with what it returned. *)
Inductive event : Type :=
| Ev (X : Type) (c : call X) (x : X).

Arguments Ev {X} c x.

(** An implementation of the callees over a world [W]. *)
Definition handler (W : Type) : Type := forall X : Type, call X -> W -> X * W.

Record outcome (R W : Type) : Type := Outcome {
  returned : R;
  trace    : list event;
  final    : W
}.

Fixpoint exec {W R : Type} (h : handler W) (p : prog R) (w : W) : outcome R W :=
  match p with
  | Ret r => Outcome r [] w
  | Do c k =>
      let (x, w1) := h _ c w in
      match exec h (k x) w1 with
      | Outcome r t w2 => Outcome r (Ev c x :: t) w2
      end
  end.

End Main.

Arguments Ret {hdr R} r.
Arguments Do {hdr R X} c k.
Arguments Ev {hdr X} c x.

Declare Scope prog_scope.
Delimit Scope prog_scope with prog.
Notation "x <- c ;; k" := (bind c (fun x => k))
  (at level 61, c at next level, right associativity) : prog_scope.
Notation "c ;;; k" := (bind c (fun _ => k))
  (at level 61, right associativity) : prog_scope.
Open Scope prog_scope.

(** ** The functions of main.c *)

Section Source.
Context {hdr : headers}.
Variable b : build.

(** main.c, lines 22-50 (compiled when FOUNDATION_PLATFORM_WINDOWS).  The
    [switch] yields the three locals it assigns. *)
Definition _main_console_handler (control_type : Z) : prog bool :=
  let control_name := "UNKNOWN" in
  let post_terminate := false in
  let handled := true in
  locals <-
    (if control_type =? CTRL_C_EVENT then
       Ret ("CTRL_C", true, handled)
     else if control_type =? CTRL_BREAK_EVENT then
       Ret ("CTRL_BREAK", post_terminate, handled)
     else if control_type =? CTRL_CLOSE_EVENT then
       Ret ("CTRL_CLOSE", true, handled)
     else if control_type =? CTRL_LOGOFF_EVENT then
       daemon <- perform (config_bool HASH_APPLICATION HASH_DAEMON) ;;
       Ret ("CTRL_LOGOFF", negb daemon, handled)
     else if control_type =? CTRL_SHUTDOWN_EVENT then
       Ret ("CTRL_SHUTDOWN", true, handled)
     else
       Ret (control_name, post_terminate, false)) ;;
  let '(control_name, post_terminate, handled) := locals in
  perform (log_infof "Caught console control: %s (%d)"
                     control_name control_type) ;;;
  (if post_terminate : bool then
     let level := 0 in
     let flags := 0 in
     perform (system_post_event FOUNDATIONEVENT_TERMINATE) ;;;
     params <- perform (GetProcessShutdownParameters level flags) ;;
     let '(level, flags) := params in
     perform (SetProcessShutdownParameters level SHUTDOWN_NORETRY) ;;;
     perform (thread_sleep 1000)
   else Ret tt) ;;;
  Ret handled.

(** main.c, lines 113-128 (compiled when FOUNDATION_PLATFORM_POSIX on a
    build that is neither Windows nor Android). *)
Definition sighandler (sig : Z) : prog unit :=
  let signame := "UNKNOWN" in
  let signame :=
    if sig =? SIGKILL then "SIGKILL"
    else if sig =? SIGTERM then "SIGTERM"
    else if sig =? SIGQUIT then "SIGQUIT"
    else if sig =? SIGINT then "SIGINT"
    else signame in
  perform (log_infof "Caught signal: %s (%d)" signame sig) ;;;
  perform (system_post_event FOUNDATIONEVENT_TERMINATE).

(** main.c, lines 72-88 and again, letter for letter, lines 204-220: the
    run phase of a build without BUILD_DEBUG. *)
Definition guarded_main_run : prog Z :=
  app <- perform environment_application ;;
  let aname := short_name app in
  name <- perform (string_clone (match aname with
                                 | Some s => s
                                 | None => "unknown"
                                 end)) ;;
  name <- perform (string_append name "-") ;;
  vstr <- perform (version_to_string_static (version app)) ;;
  name <- perform (string_append name vstr) ;;
  match dump_callback app with
  | Some cb => perform (crash_guard_set cb name)
  | None => Ret tt
  end ;;;
  ret <- perform (crash_guard FN_main_run 0 (dump_callback app) name) ;;
  perform (string_deallocate name) ;;;
  Ret ret.

(** main.c, lines 58-94 (compiled when FOUNDATION_PLATFORM_WINDOWS). *)
Definition WinMain (instance previnst : ptr) (cline : string) (cmd_show : Z)
  : prog Z :=
  let ret := -1 in
  r <- perform main_initialize ;;
  if r <? 0 then Ret (-1) else
  perform (SetConsoleCtrlHandler FN__main_console_handler true) ;;;
  perform thread_set_main ;;;
  ret <- (if BUILD_DEBUG b then perform (main_run 0) else guarded_main_run) ;;
  perform main_shutdown ;;;
  Ret ret.

(** main.c, lines 135-241: [main( argc, argv )], which on Android is
    [android_main( app )] and returns nothing ([None]).  The early returns
    of lines 143-151 are carried by the flag [failed]. *)
Definition main (argc : Z) (argv : ptr) (app : ptr) : prog (option Z) :=
  let ret := -1 in
  failed <-
    (if FOUNDATION_PLATFORM_ANDROID b then
       r <- perform (android_initialize app) ;;
       if r <? 0 then Ret true else
       r <- perform main_initialize ;;
       if r <? 0 then Ret true else Ret false
     else
       r <- perform main_initialize ;;
       if r <? 0 then Ret true else Ret false) ;;
  if failed : bool then
    Ret (if FOUNDATION_PLATFORM_ANDROID b then None else Some ret)
  else
  (if FOUNDATION_PLATFORM_POSIX b && negb (FOUNDATION_PLATFORM_ANDROID b) then
     perform (signal SIGKILL FN_sighandler) ;;;
     perform (signal SIGTERM FN_sighandler) ;;;
     perform (signal SIGQUIT FN_sighandler) ;;;
     perform (signal SIGINT FN_sighandler) ;;;
     perform (sigaction_SIG_IGN SIGPIPE)
   else Ret tt) ;;;
  (if FOUNDATION_PLATFORM_WINDOWS b then
     perform (SetConsoleCtrlHandler FN__main_console_handler true)
   else Ret tt) ;;;
  perform thread_set_main ;;;
  ret <-
    (if FOUNDATION_PLATFORM_MACOSX b || FOUNDATION_PLATFORM_IOS b then
       bsdutility <- perform (app_config_bool _HASH_APPLICATION
                                              _HASH_BSDUTILITY) ;;
       if negb bsdutility then
         if FOUNDATION_PLATFORM_MACOSX b then
           perform (_app_start_main_ns_thread argc argv) ;;;
           perform (NSApplicationMain argc argv)
         else if FOUNDATION_PLATFORM_IOS b then
           perform (UIApplicationMain argc argv 0 0)
         else Ret ret
       else
         perform (app_main 0)
     else
       if BUILD_DEBUG b then perform (main_run 0) else guarded_main_run) ;;
  perform main_shutdown ;;;
  (if FOUNDATION_PLATFORM_MACOSX b || FOUNDATION_PLATFORM_IOS b then
     bundle <- perform read__bundle ;;
     match bundle with
     | Some cf => perform (CFRelease cf)
     | None => Ret tt
     end
   else Ret tt) ;;;
  if FOUNDATION_PLATFORM_ANDROID b then
    perform android_shutdown ;;;
    Ret None
  else
    Ret (Some ret).

(** main.c, lines 246-288 (compiled when FOUNDATION_PLATFORM_MACOSX or
    FOUNDATION_PLATFORM_IOS). *)
Definition _app_did_finish_launching : prog unit :=
  if FOUNDATION_PLATFORM_IOS b then perform _app_main_pre_loop else Ret tt.

Definition _app_did_become_active : prog unit :=
  if FOUNDATION_PLATFORM_IOS b then perform app_reset_frame_time else Ret tt.

Definition _app_will_resign_active : prog unit :=
  Ret tt.

Definition _app_will_terminate : prog unit :=
  perform (system_event_post COREEVENT_TERMINATE) ;;;
  perform app_pump_events ;;;
  perform _app_main_post_loop ;;;
  perform core_terminate_services ;;;
  (if FOUNDATION_PLATFORM_MACOSX b || FOUNDATION_PLATFORM_IOS b then
     bundle <- perform read__bundle ;;
     match bundle with
     | Some cf => perform (CFRelease cf)
     | None => Ret tt
     end
   else Ret tt) ;;;
  perform app_exit ;;;
  perform _app_post_exit ;;;
  argv <- perform read__invoke_argv ;;
  perform (array_deallocate argv) ;;;
  perform core_shutdown.

(** main.c, lines 294-299 (compiled when FOUNDATION_PLATFORM_IOS). *)
Definition _app_open_url (url source_app : string) (nsurl : ptr) : prog bool :=
  fn <- perform read_app_open_url ;;
  match fn with
  | Some f => perform (call_app_open_url f url source_app nsurl)
  | None => Ret false
  end.

End Source.

(** ** Observations on traces *)

Section Traces.
Context {hdr : headers}.

Definition count (f : event -> bool) (t : list event) : nat :=
  List.length (filter f t).

(** The events before, and after, the first one that satisfies [f]. *)
Fixpoint before (f : event -> bool) (t : list event) : list event :=
  match t with
  | [] => []
  | e :: t' => if f e then [] else e :: before f t'
  end.

Fixpoint after (f : event -> bool) (t : list event) : list event :=
  match t with
  | [] => []
  | e :: t' => if f e then t' else after f t'
  end.

Definition is_terminate_post (e : event) : bool :=
  match e with
  | Ev (system_post_event FOUNDATIONEVENT_TERMINATE) _ => true
  | _ => false
  end.

Definition is_post (e : event) : bool :=
  match e with
  | Ev (system_post_event _) _ | Ev (system_event_post _) _ => true
  | _ => false
  end.

Definition is_deferral (e : event) : bool :=
  match e with
  | Ev (GetProcessShutdownParameters _ _) _
  | Ev (SetProcessShutdownParameters _ _) _ => true
  | _ => false
  end.

Definition is_sleep (e : event) : bool :=
  match e with
  | Ev (thread_sleep _) _ => true
  | _ => false
  end.

Definition is_initialize (e : event) : bool :=
  match e with
  | Ev main_initialize _ | Ev (android_initialize _) _ => true
  | _ => false
  end.

Definition is_main_run (e : event) : bool :=
  match e with
  | Ev (main_run _) _ => true
  | _ => false
  end.

Definition is_crash_guard (e : event) : bool :=
  match e with
  | Ev (crash_guard _ _ _ _) _ => true
  | _ => false
  end.

Definition is_crash_guard_set (e : event) : bool :=
  match e with
  | Ev (crash_guard_set _ _) _ => true
  | _ => false
  end.

Definition is_app_main (e : event) : bool :=
  match e with
  | Ev (app_main _) _ => true
  | _ => false
  end.

Definition is_ui_loop (e : event) : bool :=
  match e with
  | Ev (NSApplicationMain _ _) _ | Ev (UIApplicationMain _ _ _ _) _ => true
  | _ => false
  end.

Definition is_thread_start (e : event) : bool :=
  match e with
  | Ev (_app_start_main_ns_thread _ _) _ => true
  | _ => false
  end.

(** Any way main.c has of entering the run phase. *)
Definition is_run (e : event) : bool :=
  is_main_run e || is_crash_guard e || is_app_main e
  || is_ui_loop e || is_thread_start e.

Definition is_main_shutdown (e : event) : bool :=
  match e with
  | Ev main_shutdown _ => true
  | _ => false
  end.

Definition is_string_deallocate (e : event) : bool :=
  match e with
  | Ev (string_deallocate _) _ => true
  | _ => false
  end.

(** Building or releasing the crash label. *)
Definition is_label (e : event) : bool :=
  match e with
  | Ev environment_application _
  | Ev (string_clone _) _
  | Ev (string_append _ _) _
  | Ev (version_to_string_static _) _
  | Ev (string_deallocate _) _ => true
  | _ => false
  end.

(** What a posting run of the console handler leaves in the trace, and what
    a run that only logs leaves. *)
Definition posting_trace (name : string) (control_type level flags : Z)
  : list event :=
  [Ev (log_infof "Caught console control: %s (%d)" name control_type) tt;
   Ev (system_post_event FOUNDATIONEVENT_TERMINATE) tt;
   Ev (GetProcessShutdownParameters 0 0) (level, flags);
   Ev (SetProcessShutdownParameters level SHUTDOWN_NORETRY) tt;
   Ev (thread_sleep 1000) tt].

Definition logging_trace (name : string) (control_type : Z) : list event :=
  [Ev (log_infof "Caught console control: %s (%d)" name control_type) tt].

(** The calls of the guarded run phase. *)
Definition is_guarded_run (e : event) : bool :=
  is_label e || is_crash_guard_set e || is_crash_guard e.

(** The label as the specification words it: the short name, or "unknown"
    when there is none, then "-", then the version string. *)
Definition crash_label (app : application_t) (version_str : string) : string :=
  (match short_name app with
   | Some s => s
   | None => "unknown"
   end ++ "-" ++ version_str)%string.

(** The calls of a guarded run in the order the specification gives them:
    the label is cloned from the short name and extended twice, the dump
    callback is registered if there is one, the entry function runs under
    the guard, the label is given back. *)
Definition guarded_run_calls (app : application_t) (p1 p2 : ptr)
    (version_str : string) (name : ptr) (code : Z) : list event :=
  ([Ev environment_application app;
    Ev (string_clone match short_name app with
                     | Some s => s
                     | None => "unknown"
                     end) p1;
    Ev (string_append p1 "-") p2;
    Ev (version_to_string_static (version app)) version_str;
    Ev (string_append p2 version_str) name]
   ++ match dump_callback app with
      | Some cb => [Ev (crash_guard_set cb name) tt]
      | None => []
      end
   ++ [Ev (crash_guard FN_main_run 0 (dump_callback app) name) code;
       Ev (string_deallocate name) tt])%list.

(** Everything main.c does on its way out. *)
Definition is_cleanup (e : event) : bool :=
  match e with
  | Ev main_shutdown _
  | Ev android_shutdown _
  | Ev (CFRelease _) _
  | Ev (string_deallocate _) _
  | Ev (array_deallocate _) _
  | Ev core_shutdown _ => true
  | _ => false
  end.

(** What the first call of [main_initialize] returned. *)
Fixpoint initialize_result (t : list event) : option Z :=
  match t with
  | [] => None
  | Ev main_initialize r :: _ => Some r
  | _ :: t' => initialize_result t'
  end.

(** What the first run-phase call that returns an exit code returned. *)
Fixpoint run_result (t : list event) : option Z :=
  match t with
  | [] => None
  | Ev (main_run _) r :: _ => Some r
  | Ev (crash_guard _ _ _ _) r :: _ => Some r
  | Ev (app_main _) r :: _ => Some r
  | Ev (NSApplicationMain _ _) r :: _ => Some r
  | Ev (UIApplicationMain _ _ _ _) r :: _ => Some r
  | _ :: t' => run_result t'
  end.


(** What the first lookup of the daemon setting returned. *)
Fixpoint daemon_setting (t : list event) : option bool :=
  match t with
  | [] => None
  | Ev (config_bool HASH_APPLICATION HASH_DAEMON) v :: _ => Some v
  | _ :: t' => daemon_setting t'
  end.

(** Further observations, on how the entry points start up. *)
Definition is_log (e : event) : bool :=
  match e with
  | Ev (log_infof _ _ _) _ => true
  | _ => false
  end.

Definition is_signal_install (e : event) : bool :=
  match e with
  | Ev (signal _ _) _ | Ev (sigaction_SIG_IGN _) _ => true
  | _ => false
  end.

Definition is_console_install (e : event) : bool :=
  match e with
  | Ev (SetConsoleCtrlHandler _ _) _ => true
  | _ => false
  end.

Definition is_thread_set_main (e : event) : bool :=
  match e with
  | Ev thread_set_main _ => true
  | _ => false
  end.

(** The calls that differ between a debug and a release build. *)
Definition is_run_phase (e : event) : bool :=
  is_main_run e || is_guarded_run e.

(** What the first call of [android_initialize] returned. *)
Fixpoint android_initialize_result (t : list event) : option Z :=
  match t with
  | [] => None
  | Ev (android_initialize _) r :: _ => Some r
  | _ :: t' => android_initialize_result t'
  end.

End Traces.

(** ** Lifecycle phases *)

Section Lifecycle.
Context {hdr : headers}.

(** Modelled from the spec: the LifecycleState of section 3.  main.c keeps
    no such variable; the phase is the one reached by the lifecycle calls
    that have returned so far, following section 4.1: initialize moves
    Unstarted to Initialized when it succeeds, run is accepted in
    Initialized only and has passed through Running to Terminating once it
    has returned, shutdown moves any phase to ShutDown. *)
Inductive LifecycleState : Type :=
| Unstarted
| Initialized
| Running
| Terminating
| ShutDown.

Definition after_run (s : LifecycleState) : LifecycleState :=
  match s with
  | Initialized | Running => Terminating
  | _ => s
  end.

Definition lifecycle_step (s : LifecycleState) (e : event) : LifecycleState :=
  match e with
  | Ev main_initialize r =>
      match s with
      | Unstarted => if r <? 0 then Unstarted else Initialized
      | _ => s
      end
  | Ev (main_run _) _
  | Ev (crash_guard _ _ _ _) _
  | Ev (app_main _) _
  | Ev (NSApplicationMain _ _) _
  | Ev (UIApplicationMain _ _ _ _) _ => after_run s
  | Ev main_shutdown _
  | Ev core_shutdown _ => ShutDown
  | _ => s
  end.

Definition lifecycle_after (s : LifecycleState) (t : list event)
  : LifecycleState :=
  fold_left lifecycle_step t s.

End Lifecycle.

(** ** A reference implementation of the callees *)

Section Reference.
Context {hdr : headers}.

(** What the application, the configuration and the system answer. *)
Record script : Type := Script {
  android_initialize_returns : Z;
  main_initialize_returns    : Z;
  main_run_returns           : Z;
  crash_guard_returns        : Z;
  app_main_returns           : Z;
  ui_loop_returns            : Z;
  daemon                     : bool;
  bsdutility                 : bool;
  application                : application_t;
  version_string             : version_t -> string;
  shutdown_parameters        : Z * Z;
  _bundle                    : option CFBundleRef;
  _invoke_argv               : ptr;
  app_open_url               : option Z;
  open_url_returns           : bool
}.

(** Modelled from the spec: string.c is not under src/.  Section 3 describes
    the crash label as the short name and the version string, held in
    storage that is deallocated when the run phase returns.  Here
    string_clone allocates a copy, string_append extends a string into new
    storage and gives up the old one, string_deallocate gives the storage
    back.  [guarded] records what the name passed to crash_guard held. *)
Record store : Type := Store {
  live     : list (ptr * string);
  fresh    : ptr;
  released : list ptr;
  guarded  : list (option string)
}.

Definition empty_store : store := Store [] 1 [] [].

Definition content (p : ptr) (m : list (ptr * string)) : option string :=
  match find (fun blk => fst blk =? p) m with
  | Some blk => Some (snd blk)
  | None => None
  end.

Definition discard (p : ptr) (m : list (ptr * string)) : list (ptr * string) :=
  filter (fun blk => negb (fst blk =? p)) m.

(** Modelled from the spec: none of the callees is under src/.  The
    application, the configuration and the system answer as the script
    says and leave the store alone; string_clone, string_append and
    string_deallocate of string.c act on the store as described above;
    crash_guard notes what the label it is given holds and returns the
    scripted exit code. *)
Definition scripted (s : script) : handler store :=
  fun X c w =>
    match c in call X return X * store with
    | main_initialize => (main_initialize_returns s, w)
    | main_run _ => (main_run_returns s, w)
    | main_shutdown => (tt, w)
    | android_initialize _ => (android_initialize_returns s, w)
    | android_shutdown => (tt, w)
    | config_bool _ _ => (daemon s, w)
    | app_config_bool _ _ => (bsdutility s, w)
    | log_infof _ _ _ => (tt, w)
    | system_post_event _ => (tt, w)
    | system_event_post _ => (tt, w)
    | thread_sleep _ => (tt, w)
    | thread_set_main => (tt, w)
    | GetProcessShutdownParameters _ _ => (shutdown_parameters s, w)
    | SetProcessShutdownParameters _ _ => (tt, w)
    | SetConsoleCtrlHandler _ _ => (tt, w)
    | signal _ _ => (tt, w)
    | sigaction_SIG_IGN _ => (tt, w)
    | environment_application => (application s, w)
    | string_clone str =>
        (fresh w,
         Store ((fresh w, str) :: live w) (fresh w + 1)
               (released w) (guarded w))
    | string_append p suffix =>
        let old := match content p (live w) with
                   | Some str => str
                   | None => EmptyString
                   end in
        (fresh w,
         Store ((fresh w, old ++ suffix) :: discard p (live w)) (fresh w + 1)
               (released w) (guarded w))
    | version_to_string_static v => (version_string s v, w)
    | string_deallocate p =>
        (tt, Store (discard p (live w)) (fresh w)
                   (p :: released w) (guarded w))
    | crash_guard_set _ _ => (tt, w)
    | crash_guard _ _ _ name =>
        (crash_guard_returns s,
         Store (live w) (fresh w) (released w)
               (content name (live w) :: guarded w))
    | _app_start_main_ns_thread _ _ => (tt, w)
    | NSApplicationMain _ _ => (ui_loop_returns s, w)
    | UIApplicationMain _ _ _ _ => (ui_loop_returns s, w)
    | app_main _ => (app_main_returns s, w)
    | read__bundle => (_bundle s, w)
    | CFRelease _ => (tt, w)
    | _app_main_pre_loop => (tt, w)
    | app_reset_frame_time => (tt, w)
    | app_pump_events => (tt, w)
    | _app_main_post_loop => (tt, w)
    | core_terminate_services => (tt, w)
    | app_exit => (tt, w)
    | _app_post_exit => (tt, w)
    | read__invoke_argv => (_invoke_argv s, w)
    | array_deallocate _ => (tt, w)
    | core_shutdown => (tt, w)
    | read_app_open_url => (app_open_url s, w)
    | call_app_open_url _ _ _ _ => (open_url_returns s, w)
    end.

End Reference.

(** Runs on the SDK headers: an application "demo" at version 17 whose
    version string is "1.7.0", with and without a dump callback. *)
Definition demo_application (cb : option crash_dump_callback_fn)
  : @application_t sdk_headers :=
  @Application sdk_headers (Some "demo") 17 cb.

Definition demo (init : Z) (is_daemon is_bsdutility : bool)
                (cb : option crash_dump_callback_fn) : @script sdk_headers :=
  @Script sdk_headers 0 init 7 8 9 10 is_daemon is_bsdutility
          (demo_application cb) (fun _ => "1.7.0") (640, 0)
          (Some 4096) 8192 None false.

(** Build configurations of the five platform families.  main.c itself
    shows that Android, macOS and iOS builds define FOUNDATION_PLATFORM_POSIX
    (lines 101-111 and 153). *)
Definition windows_build (debug : bool) : build :=
  Build true false false false false debug.
Definition android_build (debug : bool) : build :=
  Build false true true false false debug.
Definition linux_build (debug : bool) : build :=
  Build false false true false false debug.
Definition macosx_build (debug : bool) : build :=
  Build false false true true false debug.
Definition ios_build (debug : bool) : build :=
  Build false false true false true debug.

(** ** Proof support *)

(** Decide the tests of a [switch] whose scrutinee is known. *)
Ltac switch :=
  repeat match goal with
         | |- context [?a =? ?a] => rewrite (Z.eqb_refl a)
         | |- context [?a =? ?b] =>
             destruct (Z.eqb_spec a b); [congruence |]
         end.

(** Name what the handler answers to the next call. *)
Ltac answer h :=
  match goal with
  | |- context [h ?X ?c ?w] =>
      let x := fresh "x" in
      let w1 := fresh "w" in
      destruct (h X c w) as [x w1] eqn:?;
      try match type of x with
          | unit => destruct x
          | (_ * _)%type => destruct x
          end
  end.

Ltac run h := cbn; repeat (answer h; cbn).

(** One step of an entry point: name the next answer, or decide the next
    test on an answer. *)
Ltac step h :=
  match goal with
  | |- context [h ?X ?c ?w] =>
      let x := fresh "x" in
      let w1 := fresh "w" in
      destruct (h X c w) as [x w1] eqn:?;
      try match type of x with
          | unit => destruct x
          | (_ * _)%type => destruct x
          | bool => destruct x
          | option _ => destruct x
          | application_t => destruct x as [[?|] ? [?|]]
          end
  | |- context [?x <? 0] => destruct (Z.ltb_spec x 0)
  end.

Ltac steps h := cbn; repeat (step h; cbn).

Ltac every_build b :=
  destruct b as [[] [] [] [] [] []]; cbn [FOUNDATION_PLATFORM_WINDOWS
    FOUNDATION_PLATFORM_ANDROID FOUNDATION_PLATFORM_POSIX
    FOUNDATION_PLATFORM_MACOSX FOUNDATION_PLATFORM_IOS BUILD_DEBUG] in *.

Ltac finish :=
  intros;
  repeat match goal with
         | H : Some _ = Some _ |- _ => injection H as H; subst
         | H : None = Some _ |- _ => discriminate H
         | H : true = false |- _ => discriminate H
         | H : false = true |- _ => discriminate H
         end;
  try lia; auto.

(** Run an entry point on the reference implementation for a script whose
    initialisers succeed. *)
Ltac scripted_run s :=
  destruct s as [? ? ? ? ? ? ? ? [[?|] ? [?|]] ? ? [?|] ? ? ?];
  cbn in *;
  repeat match goal with
         | |- context [?x <? 0] => destruct (Z.ltb_spec x 0); [lia |]; cbn
         end.

Lemma console_labels_apart `{headers} :
  console_labels_distinct ->
  CTRL_C_EVENT <> CTRL_BREAK_EVENT /\ CTRL_C_EVENT <> CTRL_CLOSE_EVENT /\
  CTRL_C_EVENT <> CTRL_LOGOFF_EVENT /\ CTRL_C_EVENT <> CTRL_SHUTDOWN_EVENT /\
  CTRL_BREAK_EVENT <> CTRL_CLOSE_EVENT /\
  CTRL_BREAK_EVENT <> CTRL_LOGOFF_EVENT /\
  CTRL_BREAK_EVENT <> CTRL_SHUTDOWN_EVENT /\
  CTRL_CLOSE_EVENT <> CTRL_LOGOFF_EVENT /\
  CTRL_CLOSE_EVENT <> CTRL_SHUTDOWN_EVENT /\
  CTRL_LOGOFF_EVENT <> CTRL_SHUTDOWN_EVENT.
Proof.
  unfold console_labels_distinct; intros D.
  repeat match goal with
         | D : NoDup (_ :: _) |- _ => inversion D; clear D; subst
         end.
  cbn [In] in *. intuition congruence.
Qed.

Lemma signal_labels_apart `{headers} :
  signal_labels_distinct ->
  SIGINT <> SIGKILL /\ SIGINT <> SIGTERM /\ SIGINT <> SIGQUIT.
Proof.
  unfold signal_labels_distinct; intros D.
  repeat match goal with
         | D : NoDup (_ :: _) |- _ => inversion D; clear D; subst
         end.
  cbn [In] in *. intuition congruence.
Qed.

Lemma sdk_signal_labels_distinct : @signal_labels_distinct sdk_headers.
Proof.
  unfold signal_labels_distinct; cbn.
  repeat (constructor; [cbn; intuition discriminate |]). constructor.
Qed.

Lemma sdk_console_labels_distinct : @console_labels_distinct sdk_headers.
Proof.
  unfold console_labels_distinct; cbn.
  repeat (constructor; [cbn; intuition discriminate |]). constructor.
Qed.

(** ** Executing a sequence *)

Lemma exec_bind `{headers} (W A B : Type) (h : handler W)
    (p : prog A) (f : A -> prog B) (w : W) :
  exec h (bind p f) w =
    let o1 := exec h p w in
    let o2 := exec h (f (returned o1)) (final o1) in
    Outcome (returned o2) (trace o1 ++ trace o2)%list (final o2).
Proof.
  revert w. induction p as [a | X c k IH]; intros w; cbn.
  - now destruct (exec h (f a) w).
  - destruct (h X c w) as [x w1]. rewrite IH. cbn.
    destruct (exec h (k x) w1) as [r1 t1 w2]. reflexivity.
Qed.

(** ** The termination handlers *)

Section Handlers.
Context {hdr : headers}.
Variable W : Type.
Variable h : handler W.

Lemma console_handler_ctrl_c (w : W) :
  let o := exec h (_main_console_handler CTRL_C_EVENT) w in
  returned o = true /\
  exists level flags, trace o = posting_trace "CTRL_C" CTRL_C_EVENT level flags.
Proof.
  unfold _main_console_handler, posting_trace. switch. run h. eauto.
Qed.

Lemma console_handler_ctrl_break (w : W) :
  console_labels_distinct ->
  let o := exec h (_main_console_handler CTRL_BREAK_EVENT) w in
  returned o = true /\ trace o = logging_trace "CTRL_BREAK" CTRL_BREAK_EVENT.
Proof.
  intros D; destruct (console_labels_apart D) as (?&?&?&?&?&?&?&?&?&?).
  unfold _main_console_handler, logging_trace. switch. run h. eauto.
Qed.

Lemma console_handler_ctrl_close (w : W) :
  console_labels_distinct ->
  let o := exec h (_main_console_handler CTRL_CLOSE_EVENT) w in
  returned o = true /\
  exists level flags,
    trace o = posting_trace "CTRL_CLOSE" CTRL_CLOSE_EVENT level flags.
Proof.
  intros D; destruct (console_labels_apart D) as (?&?&?&?&?&?&?&?&?&?).
  unfold _main_console_handler, posting_trace. switch. run h. eauto.
Qed.

Lemma console_handler_ctrl_logoff (w : W) :
  console_labels_distinct ->
  let o := exec h (_main_console_handler CTRL_LOGOFF_EVENT) w in
  returned o = true /\
  exists is_daemon : bool,
    fst (h (config_bool HASH_APPLICATION HASH_DAEMON) w) = is_daemon /\
    if is_daemon then
      trace o = Ev (config_bool HASH_APPLICATION HASH_DAEMON) true
                :: logging_trace "CTRL_LOGOFF" CTRL_LOGOFF_EVENT
    else
      exists level flags,
        trace o = Ev (config_bool HASH_APPLICATION HASH_DAEMON) false
                  :: posting_trace "CTRL_LOGOFF" CTRL_LOGOFF_EVENT level flags.
Proof.
  intros D; destruct (console_labels_apart D) as (?&?&?&?&?&?&?&?&?&?).
  unfold _main_console_handler, posting_trace, logging_trace. switch.
  cbn. answer h. destruct x; run h; split; trivial;
    [exists true | exists false]; eauto.
Qed.

Lemma console_handler_ctrl_shutdown (w : W) :
  console_labels_distinct ->
  let o := exec h (_main_console_handler CTRL_SHUTDOWN_EVENT) w in
  returned o = true /\
  exists level flags,
    trace o = posting_trace "CTRL_SHUTDOWN" CTRL_SHUTDOWN_EVENT level flags.
Proof.
  intros D; destruct (console_labels_apart D) as (?&?&?&?&?&?&?&?&?&?).
  unfold _main_console_handler, posting_trace. switch. run h. eauto.
Qed.

Lemma console_handler_default (control_type : Z) (w : W) :
  control_type <> CTRL_C_EVENT -> control_type <> CTRL_BREAK_EVENT ->
  control_type <> CTRL_CLOSE_EVENT -> control_type <> CTRL_LOGOFF_EVENT ->
  control_type <> CTRL_SHUTDOWN_EVENT ->
  let o := exec h (_main_console_handler control_type) w in
  returned o = false /\ trace o = logging_trace "UNKNOWN" control_type.
Proof.
  intros ? ? ? ? ?.
  unfold _main_console_handler, logging_trace. switch. run h. eauto.
Qed.

Lemma sighandler_trace (sig : Z) (w : W) :
  exists name,
    trace (exec h (sighandler sig) w) =
      [Ev (log_infof "Caught signal: %s (%d)" name sig) tt;
       Ev (system_post_event FOUNDATIONEVENT_TERMINATE) tt].
Proof.
  unfold sighandler. run h. eauto.
Qed.

Lemma sighandler_sigint (w : W) :
  signal_labels_distinct ->
  trace (exec h (sighandler SIGINT) w) =
    [Ev (log_infof "Caught signal: %s (%d)" "SIGINT" SIGINT) tt;
     Ev (system_post_event FOUNDATIONEVENT_TERMINATE) tt].
Proof.
  intros D; destruct (signal_labels_apart D) as (?&?&?).
  unfold sighandler. switch. run h. eauto.
Qed.

End Handlers.

(** ** Claims on the termination handlers *)

Section HandlerClaims.
Context {hdr : headers}.
Variable W : Type.
Variable h : handler W.

(** C1, as amended.  The Windows console handler logs, posts
    FOUNDATIONEVENT_TERMINATE, reads the shutdown parameters, sets them
    again with SHUTDOWN_NORETRY, sleeps 1000 ms, in this order and nothing
    else, and returns TRUE for CTRL_C, CTRL_CLOSE and CTRL_SHUTDOWN; for
    CTRL_LOGOFF it first looks up the daemon setting and does the same
    when it is false, and only logs when it is true, returning TRUE either
    way; for CTRL_BREAK it only logs and returns TRUE; for every other
    code it only logs and returns FALSE.  The POSIX handler logs and posts
    FOUNDATIONEVENT_TERMINATE once for each of SIGINT, SIGQUIT, SIGTERM
    and SIGKILL.  The event is the same in all cases: it carries neither a
    cause nor a deferral flag. *)
Theorem termination_causes_mapping (w : W) :
  console_labels_distinct ->
  (forall control_type name,
     In (control_type, name) [(CTRL_C_EVENT, "CTRL_C");
                              (CTRL_CLOSE_EVENT, "CTRL_CLOSE");
                              (CTRL_SHUTDOWN_EVENT, "CTRL_SHUTDOWN")] ->
     let o := exec h (_main_console_handler control_type) w in
     returned o = true /\
     exists level flags,
       trace o =
         [Ev (log_infof "Caught console control: %s (%d)"
                        name control_type) tt;
          Ev (system_post_event FOUNDATIONEVENT_TERMINATE) tt;
          Ev (GetProcessShutdownParameters 0 0) (level, flags);
          Ev (SetProcessShutdownParameters level SHUTDOWN_NORETRY) tt;
          Ev (thread_sleep 1000) tt]) /\
  (let o := exec h (_main_console_handler CTRL_LOGOFF_EVENT) w in
   returned o = true /\
   if fst (h (config_bool HASH_APPLICATION HASH_DAEMON) w) then
     trace o =
       [Ev (config_bool HASH_APPLICATION HASH_DAEMON) true;
        Ev (log_infof "Caught console control: %s (%d)"
                      "CTRL_LOGOFF" CTRL_LOGOFF_EVENT) tt]
   else
     exists level flags,
       trace o =
         [Ev (config_bool HASH_APPLICATION HASH_DAEMON) false;
          Ev (log_infof "Caught console control: %s (%d)"
                        "CTRL_LOGOFF" CTRL_LOGOFF_EVENT) tt;
          Ev (system_post_event FOUNDATIONEVENT_TERMINATE) tt;
          Ev (GetProcessShutdownParameters 0 0) (level, flags);
          Ev (SetProcessShutdownParameters level SHUTDOWN_NORETRY) tt;
          Ev (thread_sleep 1000) tt]) /\
  (let o := exec h (_main_console_handler CTRL_BREAK_EVENT) w in
   returned o = true /\
   trace o = [Ev (log_infof "Caught console control: %s (%d)"
                            "CTRL_BREAK" CTRL_BREAK_EVENT) tt]) /\
  (forall control_type,
     ~ In control_type [CTRL_C_EVENT; CTRL_BREAK_EVENT; CTRL_CLOSE_EVENT;
                        CTRL_LOGOFF_EVENT; CTRL_SHUTDOWN_EVENT] ->
     let o := exec h (_main_console_handler control_type) w in
     returned o = false /\
     trace o = [Ev (log_infof "Caught console control: %s (%d)"
                              "UNKNOWN" control_type) tt]) /\
  (forall sig,
     In sig [SIGINT; SIGQUIT; SIGTERM; SIGKILL] ->
     let o := exec h (sighandler sig) w in
     exists name,
       trace o = [Ev (log_infof "Caught signal: %s (%d)" name sig) tt;
                  Ev (system_post_event FOUNDATIONEVENT_TERMINATE) tt]).
Proof.
  intros D.
  split; [| split; [| split; [| split]]].
  - intros control_type name Hin. cbn [In] in Hin.
    destruct Hin as [E | [E | [E | []]]]; injection E as <- <-.
    + apply console_handler_ctrl_c.
    + apply console_handler_ctrl_close, D.
    + apply console_handler_ctrl_shutdown, D.
  - destruct (console_handler_ctrl_logoff h w D) as (Hr & d & Hd & E).
    cbv zeta. rewrite Hd. split; [exact Hr |].
    destruct d; exact E.
  - apply console_handler_ctrl_break, D.
  - intros control_type Hout. cbn [In] in Hout.
    apply console_handler_default; intuition congruence.
  - intros sig _. apply sighandler_trace.
Qed.

(** C2, as amended.  When CTRL_C (Windows) or SIGINT (POSIX) arrives, in
    whatever lifecycle phase and so in Running, the handler posts exactly
    one FOUNDATIONEVENT_TERMINATE and makes no lifecycle call, which leaves
    the phase as it was.  The POSIX handler logs, posts and does nothing
    else: it requests no deferral and does not pause.  The Windows handler
    defers and pauses after the posting, as it does after every posting:
    it logs, posts, reads the shutdown parameters, sets them again with
    SHUTDOWN_NORETRY, sleeps 1000 ms, in this order, and returns TRUE. *)
Theorem user_interrupt_posts_once (w : W) (phase : LifecycleState) :
  (let o := exec h (_main_console_handler CTRL_C_EVENT) w in
   returned o = true /\
   (exists level flags,
      trace o =
        [Ev (log_infof "Caught console control: %s (%d)"
                       "CTRL_C" CTRL_C_EVENT) tt;
         Ev (system_post_event FOUNDATIONEVENT_TERMINATE) tt;
         Ev (GetProcessShutdownParameters 0 0) (level, flags);
         Ev (SetProcessShutdownParameters level SHUTDOWN_NORETRY) tt;
         Ev (thread_sleep 1000) tt]) /\
   count is_post (trace o) = 1%nat /\
   count is_terminate_post (trace o) = 1%nat /\
   lifecycle_after phase (trace o) = phase) /\
  (let o := exec h (sighandler SIGINT) w in
   (exists name,
      trace o = [Ev (log_infof "Caught signal: %s (%d)" name SIGINT) tt;
                 Ev (system_post_event FOUNDATIONEVENT_TERMINATE) tt]) /\
   count is_post (trace o) = 1%nat /\
   count is_terminate_post (trace o) = 1%nat /\
   count is_deferral (trace o) = 0%nat /\
   count is_sleep (trace o) = 0%nat /\
   lifecycle_after phase (trace o) = phase).
Proof.
  split.
  - destruct (console_handler_ctrl_c h w) as (Hr & level & flags & E).
    cbv zeta. rewrite E. repeat split; trivial.
    exists level, flags. reflexivity.
  - destruct (sighandler_trace h SIGINT w) as (name & E).
    cbv zeta. rewrite E. repeat split; trivial.
    exists name. reflexivity.
Qed.

(** C3.  When CTRL_SHUTDOWN arrives the handler does not consult the daemon
    setting; whatever it is, and so when it is false, the handler logs,
    posts FOUNDATIONEVENT_TERMINATE, reads the process shutdown
    parameters, sets them again with SHUTDOWN_NORETRY, sleeps 1000 ms and
    only then returns TRUE. *)
Theorem system_shutdown_defers_and_pauses (w : W) :
  console_labels_distinct ->
  let o := exec h (_main_console_handler CTRL_SHUTDOWN_EVENT) w in
  returned o = true /\
  daemon_setting (trace o) = None /\
  exists level flags,
    trace o =
      [Ev (log_infof "Caught console control: %s (%d)"
                     "CTRL_SHUTDOWN" CTRL_SHUTDOWN_EVENT) tt;
       Ev (system_post_event FOUNDATIONEVENT_TERMINATE) tt;
       Ev (GetProcessShutdownParameters 0 0) (level, flags);
       Ev (SetProcessShutdownParameters level SHUTDOWN_NORETRY) tt;
       Ev (thread_sleep 1000) tt].
Proof.
  intros D.
  destruct (console_handler_ctrl_shutdown h w D) as (Hr & level & flags & E).
  cbv zeta. rewrite E. repeat split; trivial.
  exists level, flags. reflexivity.
Qed.

(** C10.  For CTRL_BREAK the handler only logs: it returns TRUE, posts no
    event, requests no deferral and does not sleep. *)
Theorem ctrl_break_handled_silently (w : W) :
  console_labels_distinct ->
  let o := exec h (_main_console_handler CTRL_BREAK_EVENT) w in
  returned o = true /\
  trace o = [Ev (log_infof "Caught console control: %s (%d)"
                           "CTRL_BREAK" CTRL_BREAK_EVENT) tt] /\
  count is_post (trace o) = 0%nat /\
  count is_deferral (trace o) = 0%nat /\
  count is_sleep (trace o) = 0%nat.
Proof.
  intros D.
  destruct (console_handler_ctrl_break h w D) as (Hr & E).
  cbv zeta. rewrite E. repeat split; trivial.
Qed.

End HandlerClaims.

(** *** Concrete runs of the handlers *)

(** C1 fails as stated: with the daemon setting on, CTRL_LOGOFF, a cause of
    the table, is reported as handled and nothing is posted. *)
Lemma logoff_of_daemon_posts_nothing :
  let o := exec (scripted (demo 0 true false None))
                (_main_console_handler (hdr := sdk_headers) 5) empty_store in
  returned o = true /\ count is_post (trace o) <> 1%nat.
Proof.
  cbv zeta. split; [reflexivity | cbn; discriminate].
Qed.

Lemma termination_causes_mapping_witness :
  @console_labels_distinct sdk_headers /\
  (let o := exec (scripted (demo 0 false false None))
                 (_main_console_handler (hdr := sdk_headers) 6) empty_store in
   returned o = true /\
   exists level flags,
     trace o =
       [Ev (log_infof "Caught console control: %s (%d)" "CTRL_SHUTDOWN" 6) tt;
        Ev (system_post_event FOUNDATIONEVENT_TERMINATE) tt;
        Ev (GetProcessShutdownParameters 0 0) (level, flags);
        Ev (SetProcessShutdownParameters level 1) tt;
        Ev (thread_sleep 1000) tt]) /\
  (let o := exec (scripted (demo 0 false false None))
                 (_main_console_handler (hdr := sdk_headers) 77) empty_store in
   returned o = false /\
   trace o = [Ev (log_infof "Caught console control: %s (%d)"
                            "UNKNOWN" 77) tt]) /\
  (let o := exec (scripted (demo 0 false false None))
                 (sighandler (hdr := sdk_headers) 15) empty_store in
   exists name,
     trace o = [Ev (log_infof "Caught signal: %s (%d)" name 15) tt;
                Ev (system_post_event FOUNDATIONEVENT_TERMINATE) tt]).
Proof.
  pose proof (@termination_causes_mapping sdk_headers _
                (scripted (demo 0 false false None)) empty_store
                sdk_console_labels_distinct) as (Hpost & _ & _ & Hnone & Hsig).
  split; [exact sdk_console_labels_distinct |].
  split; [| split].
  - apply (Hpost 6 "CTRL_SHUTDOWN"). cbn. tauto.
  - apply (Hnone 77). cbn. intuition discriminate.
  - apply (Hsig 15). cbn. tauto.
Defined.

(** C2 fails as stated: on Windows the handler requests the deferral and
    pauses for CTRL_C as well. *)
Lemma ctrl_c_defers_and_pauses :
  let o := exec (scripted (demo 0 false false None))
                (_main_console_handler (hdr := sdk_headers) 0) empty_store in
  count is_terminate_post (trace o) = 1%nat /\
  ~ (count is_deferral (trace o) = 0%nat /\ count is_sleep (trace o) = 0%nat).
Proof.
  cbv zeta. split; [reflexivity | cbn; intros [? _]; discriminate].
Qed.

Lemma system_shutdown_defers_and_pauses_witness :
  @console_labels_distinct sdk_headers /\
  let o := exec (scripted (demo 0 false false None))
                (_main_console_handler (hdr := sdk_headers) 6) empty_store in
  returned o = true /\
  daemon_setting (trace o) = None /\
  exists level flags,
    trace o =
      [Ev (log_infof "Caught console control: %s (%d)" "CTRL_SHUTDOWN" 6) tt;
       Ev (system_post_event FOUNDATIONEVENT_TERMINATE) tt;
       Ev (GetProcessShutdownParameters 0 0) (level, flags);
       Ev (SetProcessShutdownParameters level 1) tt;
       Ev (thread_sleep 1000) tt].
Proof.
  split; [exact sdk_console_labels_distinct |].
  apply (@system_shutdown_defers_and_pauses sdk_headers _
           (scripted (demo 0 false false None)) empty_store).
  exact sdk_console_labels_distinct.
Defined.

Lemma ctrl_break_handled_silently_witness :
  @console_labels_distinct sdk_headers /\
  let o := exec (scripted (demo 0 false false None))
                (_main_console_handler (hdr := sdk_headers) 1) empty_store in
  returned o = true /\
  trace o = [Ev (log_infof "Caught console control: %s (%d)"
                           "CTRL_BREAK" 1) tt] /\
  count is_post (trace o) = 0%nat /\
  count is_deferral (trace o) = 0%nat /\
  count is_sleep (trace o) = 0%nat.
Proof.
  split; [exact sdk_console_labels_distinct |].
  apply (@ctrl_break_handled_silently sdk_headers _
           (scripted (demo 0 false false None)) empty_store).
  exact sdk_console_labels_distinct.
Defined.

(** ** The entry points *)

Section EntryClaims.
Context {hdr : headers}.
Variable W : Type.
Variable h : handler W.

(** main and WinMain do call main_initialize, and what the trace records
    for it is what the callee answered: WinMain and, off Android, main call
    it first, android_main calls it once android_initialize has
    succeeded. *)
Lemma main_reaches_main_initialize
    (b : build) (w : W) (argc : Z) (argv app : ptr) :
  let o := exec h (main b argc argv app) w in
  (FOUNDATION_PLATFORM_ANDROID b = false ->
   initialize_result (trace o) = Some (fst (h main_initialize w))) /\
  (FOUNDATION_PLATFORM_ANDROID b = true ->
   0 <= fst (h (android_initialize app) w) ->
   initialize_result (trace o) =
     Some (fst (h main_initialize (snd (h (android_initialize app) w))))).
Proof.
  every_build b; unfold main, guarded_main_run; steps h;
    split; intros; try discriminate; try reflexivity;
    cbn [fst snd] in *; try lia; congruence.
Qed.

Lemma WinMain_reaches_main_initialize
    (b : build) (w : W) (instance previnst : ptr) (cline : string)
    (cmd_show : Z) :
  initialize_result
    (trace (exec h (WinMain b instance previnst cline cmd_show) w)) =
  Some (fst (h main_initialize w)).
Proof.
  every_build b; unfold WinMain, guarded_main_run; steps h;
    cbn [fst snd] in *; congruence.
Qed.

(** C5.  main and WinMain call main_initialize (android_main after
    android_initialize has succeeded).  When it returns a negative value,
    main returns -1 (android_main, which returns nothing, just returns) and
    WinMain returns -1; up to then they have called nothing but the
    initialisers, so the run phase was not entered and nothing was shut
    down or released. *)
Theorem initialize_failure_exits_early
    (b : build) (w : W) (argc : Z) (argv app instance previnst : ptr)
    (cline : string) (cmd_show : Z) :
  (let o := exec h (main b argc argv app) w in
   (FOUNDATION_PLATFORM_ANDROID b = false ->
    initialize_result (trace o) = Some (fst (h main_initialize w))) /\
   (FOUNDATION_PLATFORM_ANDROID b = true ->
    0 <= fst (h (android_initialize app) w) ->
    initialize_result (trace o) =
      Some (fst (h main_initialize (snd (h (android_initialize app) w))))) /\
   forall r, initialize_result (trace o) = Some r -> r < 0 ->
     returned o = (if FOUNDATION_PLATFORM_ANDROID b then None else Some (-1)) /\
     forallb is_initialize (trace o) = true /\
     count is_run (trace o) = 0%nat /\
     count is_cleanup (trace o) = 0%nat) /\
  (let o := exec h (WinMain b instance previnst cline cmd_show) w in
   initialize_result (trace o) = Some (fst (h main_initialize w)) /\
   forall r, initialize_result (trace o) = Some r -> r < 0 ->
     returned o = -1 /\
     trace o = [Ev main_initialize r] /\
     count is_run (trace o) = 0%nat /\
     count is_cleanup (trace o) = 0%nat).
Proof.
  split.
  - destruct (main_reaches_main_initialize b w argc argv app) as (Hp & Ha).
    split; [exact Hp | split; [exact Ha |]].
    every_build b; unfold main, guarded_main_run; steps h; finish.
  - split; [apply WinMain_reaches_main_initialize |].
    every_build b; unfold WinMain, guarded_main_run; steps h; finish.
Qed.

(** C6.  On a build that is neither macOS, iOS nor Android, main calls
    main_initialize first, and so does WinMain; once it has succeeded they
    enter the run phase exactly once, through main_run( 0 ) in a debug
    build and through crash_guard in a release build, call main_shutdown
    exactly once, after that call has returned, and return the value the
    run phase call returned, whatever main_shutdown does. *)
Theorem exit_code_is_run_result
    (b : build) (w : W) (argc : Z) (argv app instance previnst : ptr)
    (cline : string) (cmd_show : Z) :
  (FOUNDATION_PLATFORM_MACOSX b = false ->
   FOUNDATION_PLATFORM_IOS b = false ->
   FOUNDATION_PLATFORM_ANDROID b = false ->
   let o := exec h (main b argc argv app) w in
   initialize_result (trace o) = Some (fst (h main_initialize w)) /\
   forall r, initialize_result (trace o) = Some r -> 0 <= r ->
     exists code,
       run_result (trace o) = Some code /\
       returned o = Some code /\
       count is_run (trace o) = 1%nat /\
       count is_main_run (trace o) = (if BUILD_DEBUG b then 1 else 0)%nat /\
       count is_crash_guard (trace o) = (if BUILD_DEBUG b then 0 else 1)%nat /\
       count is_main_shutdown (trace o) = 1%nat /\
       count is_main_shutdown (after is_run (trace o)) = 1%nat) /\
  (let o := exec h (WinMain b instance previnst cline cmd_show) w in
   initialize_result (trace o) = Some (fst (h main_initialize w)) /\
   forall r, initialize_result (trace o) = Some r -> 0 <= r ->
     exists code,
       run_result (trace o) = Some code /\
       returned o = code /\
       count is_run (trace o) = 1%nat /\
       count is_main_run (trace o) = (if BUILD_DEBUG b then 1 else 0)%nat /\
       count is_crash_guard (trace o) = (if BUILD_DEBUG b then 0 else 1)%nat /\
       count is_main_shutdown (trace o) = 1%nat /\
       count is_main_shutdown (after is_run (trace o)) = 1%nat).
Proof.
  split.
  - intros Hmac Hios Handroid.
    split; [now apply main_reaches_main_initialize |].
    revert Hmac Hios Handroid.
    every_build b; try discriminate; intros _ _ _;
      unfold main, guarded_main_run; steps h; finish;
      eexists; repeat split; reflexivity.
  - split; [apply WinMain_reaches_main_initialize |].
    every_build b; unfold WinMain, guarded_main_run; steps h; finish;
      eexists; repeat split; reflexivity.
Qed.

(** C4, as amended.  main and WinMain call main_initialize (android_main
    after android_initialize has succeeded).  In a debug build, once it
    has succeeded, WinMain and, on a build that is neither macOS nor iOS,
    main call main_run( 0 ) themselves, exactly once; the application
    descriptor is not read, no label is built, crash_guard_set and
    crash_guard are not called, on macOS and iOS included.  On macOS and
    iOS main never calls main_run, in a debug build or a release build:
    it hands the run phase to app_main( 0 ) or to the UI loop. *)
Theorem debug_build_runs_unguarded
    (b : build) (w : W) (argc : Z) (argv app instance previnst : ptr)
    (cline : string) (cmd_show : Z) :
  (let o := exec h (main b argc argv app) w in
   (FOUNDATION_PLATFORM_ANDROID b = false ->
    initialize_result (trace o) = Some (fst (h main_initialize w))) /\
   (FOUNDATION_PLATFORM_ANDROID b = true ->
    0 <= fst (h (android_initialize app) w) ->
    initialize_result (trace o) =
      Some (fst (h main_initialize (snd (h (android_initialize app) w))))) /\
   (BUILD_DEBUG b = true ->
    forall r, initialize_result (trace o) = Some r -> 0 <= r ->
      (if FOUNDATION_PLATFORM_MACOSX b || FOUNDATION_PLATFORM_IOS b
       then count is_main_run (trace o) = 0%nat /\
            (count is_app_main (trace o) + count is_ui_loop (trace o) = 1)%nat
       else exists code, filter is_run (trace o) = [Ev (main_run 0) code]) /\
      count is_crash_guard (trace o) = 0%nat /\
      count is_crash_guard_set (trace o) = 0%nat /\
      count is_label (trace o) = 0%nat) /\
   (FOUNDATION_PLATFORM_MACOSX b || FOUNDATION_PLATFORM_IOS b = true ->
    forall r, initialize_result (trace o) = Some r -> 0 <= r ->
      count is_main_run (trace o) = 0%nat /\
      (count is_app_main (trace o) + count is_ui_loop (trace o) = 1)%nat /\
      count is_crash_guard (trace o) = 0%nat /\
      count is_crash_guard_set (trace o) = 0%nat /\
      count is_label (trace o) = 0%nat)) /\
  (let o := exec h (WinMain b instance previnst cline cmd_show) w in
   initialize_result (trace o) = Some (fst (h main_initialize w)) /\
   (BUILD_DEBUG b = true ->
    forall r, initialize_result (trace o) = Some r -> 0 <= r ->
      filter is_run (trace o) = [Ev (main_run 0) (returned o)] /\
      count is_crash_guard (trace o) = 0%nat /\
      count is_crash_guard_set (trace o) = 0%nat /\
      count is_label (trace o) = 0%nat)).
Proof.
  split.
  - destruct (main_reaches_main_initialize b w argc argv app) as (Hp & Ha).
    split; [exact Hp | split; [exact Ha | split]].
    + every_build b; try discriminate; intros _;
        unfold main; steps h; finish; repeat split; eauto.
    + every_build b; try discriminate; intros _;
        unfold main; steps h; finish; repeat split; reflexivity.
  - split; [apply WinMain_reaches_main_initialize |].
    every_build b; try discriminate; intros _;
      unfold WinMain; steps h; finish; repeat split; reflexivity.
Qed.


(** C9.  _app_will_terminate runs the whole termination sequence on the
    calling thread, in this order: it posts COREEVENT_TERMINATE, pumps the
    events, runs the post-loop hook, terminates the services, releases the
    bundle if there is one, lets the application exit, deallocates the
    argument vector and, last of all, calls core_shutdown. *)
Theorem will_terminate_releases_in_order (b : build) (w : W) :
  FOUNDATION_PLATFORM_MACOSX b || FOUNDATION_PLATFORM_IOS b = true ->
  let o := exec h (_app_will_terminate b) w in
  exists bundle argv,
    trace o =
      ([Ev (system_event_post COREEVENT_TERMINATE) tt;
        Ev app_pump_events tt;
        Ev _app_main_post_loop tt;
        Ev core_terminate_services tt;
        Ev read__bundle bundle]
       ++ match bundle with
          | Some cf => [Ev (CFRelease cf) tt]
          | None => []
          end
       ++ [Ev app_exit tt;
           Ev _app_post_exit tt;
           Ev read__invoke_argv argv;
           Ev (array_deallocate argv) tt;
           Ev core_shutdown tt])%list.
Proof.
  intros Happle. unfold _app_will_terminate. rewrite Happle.
  steps h;
    match goal with
    | E : h read__bundle _ = (?bundle, _) |- _ => exists bundle
    end; eexists; reflexivity.
Qed.

Lemma guarded_run_in_main
    (b : build) (w : W) (argc : Z) (argv app : ptr) :
  BUILD_DEBUG b = false ->
  FOUNDATION_PLATFORM_MACOSX b = false ->
  FOUNDATION_PLATFORM_IOS b = false ->
  let o := exec h (main b argc argv app) w in
  forall r, initialize_result (trace o) = Some r -> 0 <= r ->
    (exists descriptor p1 p2 version_str name code,
       filter is_guarded_run (trace o) =
         guarded_run_calls descriptor p1 p2 version_str name code) /\
    count is_string_deallocate (trace o) = 1%nat /\
    count is_string_deallocate (after is_crash_guard (trace o)) = 1%nat.
Proof.
  every_build b; try discriminate; intros _ _ _;
    unfold main, guarded_main_run, guarded_run_calls; steps h; finish;
    (split; [| split; reflexivity]);
    match goal with
    | E : h environment_application _ = (?a, _) |- _ => exists a
    end; cbn; do 5 eexists; reflexivity.
Qed.

Lemma guarded_run_in_WinMain
    (b : build) (w : W) (instance previnst : ptr) (cline : string)
    (cmd_show : Z) :
  BUILD_DEBUG b = false ->
  let o := exec h (WinMain b instance previnst cline cmd_show) w in
  forall r, initialize_result (trace o) = Some r -> 0 <= r ->
    (exists descriptor p1 p2 version_str name code,
       filter is_guarded_run (trace o) =
         guarded_run_calls descriptor p1 p2 version_str name code) /\
    count is_string_deallocate (trace o) = 1%nat /\
    count is_string_deallocate (after is_crash_guard (trace o)) = 1%nat.
Proof.
  every_build b; try discriminate; intros _;
    unfold WinMain, guarded_main_run, guarded_run_calls; steps h; finish;
    (split; [| split; reflexivity]);
    match goal with
    | E : h environment_application _ = (?a, _) |- _ => exists a
    end; cbn; do 5 eexists; reflexivity.
Qed.

End EntryClaims.

(** ** The crash label in the reference store *)

Lemma string_append_assoc (s1 s2 s3 : string) :
  ((s1 ++ s2) ++ s3 = s1 ++ s2 ++ s3)%string.
Proof.
  induction s1 as [| a s1 IH]; cbn; [reflexivity | now rewrite IH].
Qed.

Section StoreClaims.
Context {hdr : headers}.

Lemma guarded_run_store_main
    (s : script) (b : build) (argc : Z) (argv app : ptr) :
  BUILD_DEBUG b = false ->
  FOUNDATION_PLATFORM_MACOSX b = false ->
  FOUNDATION_PLATFORM_IOS b = false ->
  0 <= android_initialize_returns s ->
  0 <= main_initialize_returns s ->
  let o := exec (scripted s) (main b argc argv app) empty_store in
  guarded (final o) =
    [Some (crash_label (application s)
                       (version_string s (version (application s))))] /\
  live (final o) = [] /\
  List.length (released (final o)) = 1%nat.
Proof.
  every_build b; try discriminate; intros _ _ _ Ha Hm;
    unfold main, guarded_main_run, crash_label;
    scripted_run s; rewrite ?string_append_assoc; repeat split; reflexivity.
Qed.

Lemma guarded_run_store_WinMain
    (s : script) (b : build) (instance previnst : ptr) (cline : string)
    (cmd_show : Z) :
  BUILD_DEBUG b = false ->
  0 <= main_initialize_returns s ->
  let o := exec (scripted s) (WinMain b instance previnst cline cmd_show)
                empty_store in
  guarded (final o) =
    [Some (crash_label (application s)
                       (version_string s (version (application s))))] /\
  live (final o) = [] /\
  List.length (released (final o)) = 1%nat.
Proof.
  every_build b; try discriminate; intros _ Hm;
    unfold WinMain, guarded_main_run, crash_label;
    scripted_run s; rewrite ?string_append_assoc; repeat split; reflexivity.
Qed.

End StoreClaims.

(** ** Claims on the guarded run *)

(** C7.  In a build without BUILD_DEBUG, once main_initialize has
    succeeded, main (on a build that is neither macOS nor iOS) and WinMain
    read the application descriptor, clone the short name, or "unknown"
    when it is null, append "-" and then the version string, register the
    dump callback if there is one, call crash_guard on main_run with the
    label, and deallocate the label exactly once, after crash_guard has
    returned.  In the reference store the label crash_guard receives reads
    short name, "-", version string, and when the entry point returns the
    label's storage has been given back once and no string is left
    allocated. *)
Theorem crash_label_built_and_released `{headers}
    (b : build) (argc : Z) (argv app instance previnst : ptr)
    (cline : string) (cmd_show : Z) :
  BUILD_DEBUG b = false ->
  (forall (W : Type) (h : handler W) (w : W),
     (FOUNDATION_PLATFORM_MACOSX b = false ->
      FOUNDATION_PLATFORM_IOS b = false ->
      let o := exec h (main b argc argv app) w in
      forall r, initialize_result (trace o) = Some r -> 0 <= r ->
        (exists descriptor p1 p2 version_str name code,
           filter is_guarded_run (trace o) =
             guarded_run_calls descriptor p1 p2 version_str name code) /\
        count is_string_deallocate (trace o) = 1%nat /\
        count is_string_deallocate (after is_crash_guard (trace o)) = 1%nat) /\
     (let o := exec h (WinMain b instance previnst cline cmd_show) w in
      forall r, initialize_result (trace o) = Some r -> 0 <= r ->
        (exists descriptor p1 p2 version_str name code,
           filter is_guarded_run (trace o) =
             guarded_run_calls descriptor p1 p2 version_str name code) /\
        count is_string_deallocate (trace o) = 1%nat /\
        count is_string_deallocate (after is_crash_guard (trace o)) = 1%nat)) /\
  (forall s : script,
     0 <= android_initialize_returns s ->
     0 <= main_initialize_returns s ->
     (FOUNDATION_PLATFORM_MACOSX b = false ->
      FOUNDATION_PLATFORM_IOS b = false ->
      let o := exec (scripted s) (main b argc argv app) empty_store in
      guarded (final o) =
        [Some (crash_label (application s)
                           (version_string s (version (application s))))] /\
      live (final o) = [] /\
      List.length (released (final o)) = 1%nat) /\
     (let o := exec (scripted s) (WinMain b instance previnst cline cmd_show)
                    empty_store in
      guarded (final o) =
        [Some (crash_label (application s)
                           (version_string s (version (application s))))] /\
      live (final o) = [] /\
      List.length (released (final o)) = 1%nat)).
Proof.
  intros Hrelease. split.
  - intros W h w. split.
    + intros Hmac Hios. now apply guarded_run_in_main.
    + now apply guarded_run_in_WinMain.
  - intros s Ha Hm. split.
    + intros Hmac Hios. now apply guarded_run_store_main.
    + now apply guarded_run_store_WinMain.
Qed.

(** ** Concrete runs of the entry points *)

(** C4 fails as stated: the debug build of the macOS entry point does not
    call main_run; with the BSD-utility setting on it calls app_main. *)
Lemma debug_macosx_does_not_call_main_run :
  let o := exec (scripted (demo 0 false true None))
                (main (macosx_build true) 1 0 0) empty_store in
  initialize_result (trace o) = Some 0 /\
  count is_app_main (trace o) = 1%nat /\
  count is_main_run (trace o) <> 1%nat.
Proof.
  cbv zeta. repeat split; try reflexivity. cbn. discriminate.
Qed.

Lemma debug_build_runs_unguarded_witness :
  let o := exec (scripted (demo 0 false false (Some 99)))
                (main (linux_build true) 1 0 0) empty_store in
  let g := exec (scripted (demo 0 false false (Some 99)))
                (WinMain (windows_build true) 0 0 "cmd" 0) empty_store in
  let m := exec (scripted (demo 0 false false (Some 99)))
                (main (macosx_build false) 1 0 0) empty_store in
  BUILD_DEBUG (linux_build true) = true /\
  (initialize_result (trace o) = Some 0 /\
   (exists code, filter is_run (trace o) = [Ev (main_run 0) code]) /\
   count is_crash_guard (trace o) = 0%nat /\
   count is_crash_guard_set (trace o) = 0%nat /\
   count is_label (trace o) = 0%nat) /\
  (initialize_result (trace g) = Some 0 /\
   filter is_run (trace g) = [Ev (main_run 0) (returned g)] /\
   count is_crash_guard (trace g) = 0%nat /\
   count is_crash_guard_set (trace g) = 0%nat /\
   count is_label (trace g) = 0%nat) /\
  (initialize_result (trace m) = Some 0 /\
   count is_main_run (trace m) = 0%nat /\
   (count is_app_main (trace m) + count is_ui_loop (trace m) = 1)%nat /\
   count is_crash_guard (trace m) = 0%nat /\
   count is_crash_guard_set (trace m) = 0%nat /\
   count is_label (trace m) = 0%nat).
Proof.
  cbv zeta. split; [reflexivity |]. split; [| split].
  - destruct (proj1 (@debug_build_runs_unguarded sdk_headers _
                       (scripted (demo 0 false false (Some 99)))
                       (linux_build true) empty_store 1 0 0 0 0 "cmd" 0))
      as (Hinit & _ & Hdebug & _).
    split; [exact (Hinit eq_refl) |].
    apply (Hdebug eq_refl 0); [reflexivity | lia].
  - destruct (proj2 (@debug_build_runs_unguarded sdk_headers _
                       (scripted (demo 0 false false (Some 99)))
                       (windows_build true) empty_store 1 0 0 0 0 "cmd" 0))
      as (Hinit & Hdebug).
    split; [exact Hinit |].
    apply (Hdebug eq_refl 0); [reflexivity | lia].
  - destruct (proj1 (@debug_build_runs_unguarded sdk_headers _
                       (scripted (demo 0 false false (Some 99)))
                       (macosx_build false) empty_store 1 0 0 0 0 "cmd" 0))
      as (Hinit & _ & _ & Happle).
    split; [exact (Hinit eq_refl) |].
    apply (Happle eq_refl 0); [reflexivity | lia].
Defined.

Lemma initialize_failure_exits_early_witness :
  let o := exec (scripted (demo (-3) false false None))
                (main (linux_build false) 1 0 0) empty_store in
  let g := exec (scripted (demo (-3) false false None))
                (WinMain (windows_build false) 0 0 "cmd" 0) empty_store in
  (initialize_result (trace o) = Some (-3) /\
   returned o = Some (-1) /\
   forallb is_initialize (trace o) = true /\
   count is_run (trace o) = 0%nat /\
   count is_cleanup (trace o) = 0%nat) /\
  (initialize_result (trace g) = Some (-3) /\
   returned g = -1 /\
   trace g = [Ev main_initialize (-3)] /\
   count is_run (trace g) = 0%nat /\
   count is_cleanup (trace g) = 0%nat).
Proof.
  cbv zeta. split.
  - destruct (proj1 (@initialize_failure_exits_early sdk_headers _
                       (scripted (demo (-3) false false None))
                       (linux_build false) empty_store 1 0 0 0 0 "cmd" 0))
      as (Hinit & _ & Hfail).
    split; [exact (Hinit eq_refl) |].
    apply (Hfail (-3)); [reflexivity | lia].
  - destruct (proj2 (@initialize_failure_exits_early sdk_headers _
                       (scripted (demo (-3) false false None))
                       (windows_build false) empty_store 1 0 0 0 0 "cmd" 0))
      as (Hinit & Hfail).
    split; [exact Hinit |].
    apply (Hfail (-3)); [reflexivity | lia].
Defined.

Lemma exit_code_is_run_result_witness :
  let o := exec (scripted (demo 0 false false (Some 99)))
                (main (linux_build false) 1 0 0) empty_store in
  let g := exec (scripted (demo 0 false false (Some 99)))
                (WinMain (windows_build true) 0 0 "cmd" 0) empty_store in
  (initialize_result (trace o) = Some 0 /\
   exists code,
     run_result (trace o) = Some code /\
     returned o = Some code /\
     count is_run (trace o) = 1%nat /\
     count is_main_run (trace o) = 0%nat /\
     count is_crash_guard (trace o) = 1%nat /\
     count is_main_shutdown (trace o) = 1%nat /\
     count is_main_shutdown (after is_run (trace o)) = 1%nat) /\
  (initialize_result (trace g) = Some 0 /\
   exists code,
     run_result (trace g) = Some code /\
     returned g = code /\
     count is_run (trace g) = 1%nat /\
     count is_main_run (trace g) = 1%nat /\
     count is_crash_guard (trace g) = 0%nat /\
     count is_main_shutdown (trace g) = 1%nat /\
     count is_main_shutdown (after is_run (trace g)) = 1%nat).
Proof.
  cbv zeta. split.
  - destruct (proj1 (@exit_code_is_run_result sdk_headers _
                       (scripted (demo 0 false false (Some 99)))
                       (linux_build false) empty_store 1 0 0 0 0 "cmd" 0)
                    eq_refl eq_refl eq_refl) as (Hinit & Hrun).
    split; [exact Hinit |].
    apply (Hrun 0); [reflexivity | lia].
  - destruct (proj2 (@exit_code_is_run_result sdk_headers _
                       (scripted (demo 0 false false (Some 99)))
                       (windows_build true) empty_store 1 0 0 0 0 "cmd" 0))
      as (Hinit & Hrun).
    split; [exact Hinit |].
    apply (Hrun 0); [reflexivity | lia].
Defined.

Lemma crash_label_built_and_released_witness :
  let o := exec (scripted (demo 0 false false (Some 99)))
                (main (linux_build false) 1 0 0) empty_store in
  BUILD_DEBUG (linux_build false) = false /\
  guarded (final o) = [Some "demo-1.7.0"] /\
  live (final o) = [] /\
  List.length (released (final o)) = 1%nat.
Proof.
  cbv zeta. split; [reflexivity |].
  apply (proj1 (proj2 (@crash_label_built_and_released sdk_headers
                         (linux_build false) 1 0 0 0 0 "cmd" 0 eq_refl)
                      (demo 0 false false (Some 99))
                      ltac:(cbn; lia) ltac:(cbn; lia))
               eq_refl eq_refl).
Defined.



Lemma will_terminate_releases_in_order_witness :
  let o := exec (scripted (demo 0 false false None))
                (_app_will_terminate (hdr := sdk_headers) (ios_build false))
                empty_store in
  exists bundle argv,
    trace o =
      ([Ev (system_event_post COREEVENT_TERMINATE) tt;
        Ev app_pump_events tt;
        Ev _app_main_post_loop tt;
        Ev core_terminate_services tt;
        Ev read__bundle bundle]
       ++ match bundle with
          | Some cf => [Ev (CFRelease cf) tt]
          | None => []
          end
       ++ [Ev app_exit tt;
           Ev _app_post_exit tt;
           Ev read__invoke_argv argv;
           Ev (array_deallocate argv) tt;
           Ev core_shutdown tt])%list.
Proof.
  apply (@will_terminate_releases_in_order sdk_headers _
           (scripted (demo 0 false false None)) (ios_build false)
           empty_store eq_refl).
Defined.

(** ** Further properties of the handlers *)

Section HandlerExtras.
Context {hdr : headers}.
Variable W : Type.
Variable h : handler W.

(** X1.  Whatever the control code and whatever the constants, one run of
    the console handler makes, after the lookup of the daemon setting if
    there is one, either the single log call, or the log call, the
    posting of FOUNDATIONEVENT_TERMINATE, GetProcessShutdownParameters,
    SetProcessShutdownParameters with the level read and SHUTDOWN_NORETRY,
    and thread_sleep( 1000 ), in this order, and then returns TRUE.  So it
    logs exactly once and before any posting, posts at most once, reads
    and sets the shutdown parameters and sleeps exactly when it posts, and
    never posts for a code it reports as not handled. *)
Theorem console_handler_discipline (control_type : Z) (w : W) :
  let o := exec h (_main_console_handler control_type) w in
  (exists lookup name,
     (lookup = [] \/
      exists is_daemon,
        lookup = [Ev (config_bool HASH_APPLICATION HASH_DAEMON) is_daemon]) /\
     (trace o =
        (lookup
         ++ [Ev (log_infof "Caught console control: %s (%d)"
                           name control_type) tt])%list \/
      returned o = true /\
      exists level flags,
        trace o =
          (lookup
           ++ [Ev (log_infof "Caught console control: %s (%d)"
                             name control_type) tt;
               Ev (system_post_event FOUNDATIONEVENT_TERMINATE) tt;
               Ev (GetProcessShutdownParameters 0 0) (level, flags);
               Ev (SetProcessShutdownParameters level SHUTDOWN_NORETRY) tt;
               Ev (thread_sleep 1000) tt])%list)) /\
  count is_log (trace o) = 1%nat /\
  count is_post (before is_log (trace o)) = 0%nat /\
  (count is_post (trace o) <= 1)%nat /\
  count is_terminate_post (trace o) = count is_post (trace o) /\
  count is_deferral (trace o) = (2 * count is_post (trace o))%nat /\
  count is_sleep (trace o) = count is_post (trace o) /\
  (returned o = false -> count is_post (trace o) = 0%nat).
Proof.
  unfold _main_console_handler.
  repeat match goal with
         | |- context [?a =? ?b] => destruct (a =? b)
         end;
    steps h;
    (split;
     [ match goal with
       | E : h (config_bool _ _) _ = (?d, _) |- _ =>
           exists [Ev (config_bool HASH_APPLICATION HASH_DAEMON) d]
       | _ => exists []
       end;
       eexists;
       split;
       [ first [ left; reflexivity | right; eexists; reflexivity ]
       | first [ left; reflexivity
               | right; split; [reflexivity | do 2 eexists; reflexivity] ] ]
     | repeat split; auto; discriminate ]).
Qed.

(** X2.  The console handler reports a control code as handled exactly
    when it is one of the five codes its switch names. *)
Theorem console_handler_handled_iff (control_type : Z) (w : W) :
  returned (exec h (_main_console_handler control_type) w) = true <->
  In control_type [CTRL_C_EVENT; CTRL_BREAK_EVENT; CTRL_CLOSE_EVENT;
                   CTRL_LOGOFF_EVENT; CTRL_SHUTDOWN_EVENT].
Proof.
  unfold _main_console_handler. cbn [In].
  repeat match goal with
         | |- context [?a =? ?b] => destruct (Z.eqb_spec a b)
         end;
    steps h; split; intros; auto; try discriminate; intuition congruence.
Qed.

(** X3.  The signal handler logs the name of the signal it is given,
    "UNKNOWN" for a signal other than the four it names, and in every
    case, the unknown one included, posts FOUNDATIONEVENT_TERMINATE once
    and does nothing else. *)
Theorem sighandler_names_and_posts (w : W) :
  signal_labels_distinct ->
  (forall sig name,
     In (sig, name) [(SIGKILL, "SIGKILL"); (SIGTERM, "SIGTERM");
                     (SIGQUIT, "SIGQUIT"); (SIGINT, "SIGINT")] ->
     trace (exec h (sighandler sig) w) =
       [Ev (log_infof "Caught signal: %s (%d)" name sig) tt;
        Ev (system_post_event FOUNDATIONEVENT_TERMINATE) tt]) /\
  (forall sig,
     ~ In sig [SIGKILL; SIGTERM; SIGQUIT; SIGINT] ->
     trace (exec h (sighandler sig) w) =
       [Ev (log_infof "Caught signal: %s (%d)" "UNKNOWN" sig) tt;
        Ev (system_post_event FOUNDATIONEVENT_TERMINATE) tt]).
Proof.
  unfold signal_labels_distinct; intros D.
  repeat match goal with
         | D : NoDup (_ :: _) |- _ => inversion D; clear D; subst
         end.
  cbn [In] in *.
  split.
  - intros sig name Hin.
    repeat match goal with
           | H : _ \/ _ |- _ => destruct H
           | H : (_, _) = (_, _) |- _ => injection H as <- <-
           | H : False |- _ => destruct H
           end;
      unfold sighandler;
      repeat match goal with
             | |- context [?a =? ?a] => rewrite (Z.eqb_refl a)
             | |- context [?a =? ?b] =>
                 destruct (Z.eqb_spec a b); [exfalso; intuition congruence |]
             end;
      run h; reflexivity.
  - intros sig Hout. unfold sighandler.
    repeat match goal with
           | |- context [?a =? ?b] =>
               destruct (Z.eqb_spec a b); [exfalso; intuition congruence |]
           end.
    run h. reflexivity.
Qed.

(** X4.  _app_open_url answers false without calling anything when no
    app_open_url callback is set; when one is set it calls it once with
    the three arguments it was given and returns what it returns. *)
Theorem app_open_url_forwards (url source_app : string) (nsurl : ptr) (w : W) :
  let o := exec h (_app_open_url url source_app nsurl) w in
  match fst (h read_app_open_url w) with
  | None =>
      returned o = false /\ trace o = [Ev read_app_open_url None]
  | Some fn =>
      exists answer,
        returned o = answer /\
        trace o = [Ev read_app_open_url (Some fn);
                   Ev (call_app_open_url fn url source_app nsurl) answer]
  end.
Proof.
  unfold _app_open_url. cbn.
  destruct (h read_app_open_url w) as [[fn |] w1]; cbn.
  - destruct (h (call_app_open_url fn url source_app nsurl) w1)
      as [answer w2]; cbn.
    exists answer. split; reflexivity.
  - split; reflexivity.
Qed.

(** X5.  The launch, activation and resignation hooks never post an event
    and make no call at all on a build without iOS; on iOS the launch hook
    makes the single call _app_main_pre_loop and the activation hook the
    single call app_reset_frame_time. *)
Theorem lifecycle_hooks_calls (b : build) (w : W) :
  trace (exec h (_app_did_finish_launching b) w) =
    (if FOUNDATION_PLATFORM_IOS b then [Ev _app_main_pre_loop tt] else []) /\
  trace (exec h (_app_did_become_active b) w) =
    (if FOUNDATION_PLATFORM_IOS b then [Ev app_reset_frame_time tt] else []) /\
  trace (exec h _app_will_resign_active w) = [] /\
  count is_post (trace (exec h (_app_did_finish_launching b) w)
                 ++ trace (exec h (_app_did_become_active b) w)
                 ++ trace (exec h _app_will_resign_active w))%list = 0%nat.
Proof.
  unfold _app_did_finish_launching, _app_did_become_active,
    _app_will_resign_active.
  destruct (FOUNDATION_PLATFORM_IOS b); run h; repeat split; reflexivity.
Qed.

(** X6.  Neither termination handler ever calls an initialiser, enters
    the run phase, or shuts down or releases anything: whatever the
    control code or signal, all they do is log, look up the daemon
    setting, post, request the deferral and sleep. *)
Theorem handlers_leave_lifecycle_alone (control_type sig : Z) (w : W) :
  let t := (trace (exec h (_main_console_handler control_type) w)
            ++ trace (exec h (sighandler sig) w))%list in
  count is_initialize t = 0%nat /\
  count is_run t = 0%nat /\
  count is_cleanup t = 0%nat /\
  count is_label t = 0%nat /\
  count is_thread_set_main t = 0%nat.
Proof.
  destruct (sighandler_trace h sig w) as (name & ->).
  unfold _main_console_handler.
  repeat match goal with
         | |- context [?a =? ?b] => destruct (a =? b)
         end;
    steps h; repeat split; reflexivity.
Qed.

End HandlerExtras.

(** ** Further properties of the entry points *)

Section EntryExtras.
Context {hdr : headers}.
Variable W : Type.
Variable h : handler W.

(** Everything main has done when it returns after a successful
    main_initialize, read off one execution. *)
Lemma main_after_initialize
    (b : build) (w : W) (argc : Z) (argv app : ptr)
    (o : outcome (option Z) W) :
  exec h (main b argc argv app) w = o ->
  forall r, initialize_result (trace o) = Some r -> 0 <= r ->
    exists code bundle,
      run_result (trace o) = Some code /\
      returned o =
        (if FOUNDATION_PLATFORM_ANDROID b then None else Some code) /\
      filter is_signal_install (trace o) =
        (if FOUNDATION_PLATFORM_POSIX b && negb (FOUNDATION_PLATFORM_ANDROID b)
         then [Ev (signal SIGKILL FN_sighandler) tt;
               Ev (signal SIGTERM FN_sighandler) tt;
               Ev (signal SIGQUIT FN_sighandler) tt;
               Ev (signal SIGINT FN_sighandler) tt;
               Ev (sigaction_SIG_IGN SIGPIPE) tt]
         else []) /\
      filter is_console_install (trace o) =
        (if FOUNDATION_PLATFORM_WINDOWS b
         then [Ev (SetConsoleCtrlHandler FN__main_console_handler true) tt]
         else []) /\
      filter is_signal_install (before is_thread_set_main (trace o)) =
        filter is_signal_install (trace o) /\
      filter is_console_install (before is_thread_set_main (trace o)) =
        filter is_console_install (trace o) /\
      count is_thread_set_main (trace o) = 1%nat /\
      count is_run (before is_thread_set_main (trace o)) = 0%nat /\
      count is_main_shutdown (trace o) = 1%nat /\
      count is_run (after is_main_shutdown (trace o)) = 0%nat /\
      after is_main_shutdown (trace o) =
        ((if FOUNDATION_PLATFORM_MACOSX b || FOUNDATION_PLATFORM_IOS b
          then Ev read__bundle bundle
               :: match bundle with
                  | Some cf => [Ev (CFRelease cf) tt]
                  | None => []
                  end
          else [])
         ++ (if FOUNDATION_PLATFORM_ANDROID b
             then [Ev android_shutdown tt]
             else []))%list.
Proof.
  every_build b; unfold main, guarded_main_run; steps h;
    intros <-; cbn; finish;
    eexists;
    first [ match goal with
            | E : h read__bundle _ = (?bundle, _) |- _ => exists bundle
            end
          | exists None ];
    repeat split; reflexivity.
Qed.

Lemma WinMain_after_initialize
    (b : build) (w : W) (instance previnst : ptr) (cline : string)
    (cmd_show : Z) (o : outcome Z W) :
  exec h (WinMain b instance previnst cline cmd_show) w = o ->
  forall r, initialize_result (trace o) = Some r -> 0 <= r ->
    filter is_signal_install (trace o) = [] /\
    filter is_console_install (trace o) =
      [Ev (SetConsoleCtrlHandler FN__main_console_handler true) tt] /\
    filter is_console_install (before is_thread_set_main (trace o)) =
      filter is_console_install (trace o) /\
    count is_thread_set_main (trace o) = 1%nat /\
    count is_run (before is_thread_set_main (trace o)) = 0%nat /\
    count is_main_shutdown (trace o) = 1%nat /\
    after is_main_shutdown (trace o) = [].
Proof.
  every_build b; unfold WinMain, guarded_main_run; steps h;
    intros <-; cbn; finish; repeat split; reflexivity.
Qed.

(** X7.  Once main_initialize has succeeded, main on a POSIX build other
    than Android installs sighandler for SIGKILL, SIGTERM, SIGQUIT and
    SIGINT, in this order, and then has SIGPIPE ignored, all of it before
    it calls thread_set_main; on every other build, Android included, it
    installs no signal handler at all. *)
Theorem main_installs_signal_handlers
    (b : build) (w : W) (argc : Z) (argv app : ptr) :
  let o := exec h (main b argc argv app) w in
  forall r, initialize_result (trace o) = Some r -> 0 <= r ->
    filter is_signal_install (trace o) =
      (if FOUNDATION_PLATFORM_POSIX b && negb (FOUNDATION_PLATFORM_ANDROID b)
       then [Ev (signal SIGKILL FN_sighandler) tt;
             Ev (signal SIGTERM FN_sighandler) tt;
             Ev (signal SIGQUIT FN_sighandler) tt;
             Ev (signal SIGINT FN_sighandler) tt;
             Ev (sigaction_SIG_IGN SIGPIPE) tt]
       else []) /\
    filter is_signal_install (before is_thread_set_main (trace o)) =
      filter is_signal_install (trace o).
Proof.
  intros o r Hr Hpos.
  destruct (@main_after_initialize b w argc argv app o eq_refl r Hr Hpos)
    as (code & bundle & _ & _ & Hsig & _ & Hbefore & _).
  split; assumption.
Qed.

(** X8.  main calls main_initialize (android_main after android_initialize
    has succeeded) and WinMain calls it first.  Once it has succeeded,
    WinMain, and main exactly on a Windows build, register
    _main_console_handler with SetConsoleCtrlHandler( ..., TRUE ) once,
    before thread_set_main; WinMain installs no signal handler. *)
Theorem console_handler_registered
    (b : build) (w : W) (argc : Z) (argv app instance previnst : ptr)
    (cline : string) (cmd_show : Z) :
  (let o := exec h (main b argc argv app) w in
   (FOUNDATION_PLATFORM_ANDROID b = false ->
    initialize_result (trace o) = Some (fst (h main_initialize w))) /\
   (FOUNDATION_PLATFORM_ANDROID b = true ->
    0 <= fst (h (android_initialize app) w) ->
    initialize_result (trace o) =
      Some (fst (h main_initialize (snd (h (android_initialize app) w))))) /\
   forall r, initialize_result (trace o) = Some r -> 0 <= r ->
     filter is_console_install (trace o) =
       (if FOUNDATION_PLATFORM_WINDOWS b
        then [Ev (SetConsoleCtrlHandler FN__main_console_handler true) tt]
        else []) /\
     filter is_console_install (before is_thread_set_main (trace o)) =
       filter is_console_install (trace o)) /\
  (let o := exec h (WinMain b instance previnst cline cmd_show) w in
   initialize_result (trace o) = Some (fst (h main_initialize w)) /\
   forall r, initialize_result (trace o) = Some r -> 0 <= r ->
     filter is_console_install (trace o) =
       [Ev (SetConsoleCtrlHandler FN__main_console_handler true) tt] /\
     filter is_console_install (before is_thread_set_main (trace o)) =
       filter is_console_install (trace o) /\
     filter is_signal_install (trace o) = []).
Proof.
  split.
  - destruct (main_reaches_main_initialize h b w argc argv app) as (Hp & Ha).
    split; [exact Hp | split; [exact Ha |]].
    intros r Hr Hpos.
    destruct (@main_after_initialize b w argc argv app _ eq_refl
                r Hr Hpos)
      as (code & bundle & _ & _ & _ & Hcon & _ & Hbefore & _).
    split; assumption.
  - split; [apply WinMain_reaches_main_initialize |].
    intros r Hr Hpos.
    destruct (@WinMain_after_initialize b w instance previnst cline
                cmd_show _ eq_refl r Hr Hpos) as (Hsig & Hcon & Hbefore & _).
    repeat split; assumption.
Qed.

(** X9.  main calls main_initialize (android_main after android_initialize
    has succeeded) and WinMain calls it first.  Once it has succeeded,
    main and WinMain call thread_set_main exactly once, and before any
    call of the run phase. *)
Theorem thread_set_main_once_before_run
    (b : build) (w : W) (argc : Z) (argv app instance previnst : ptr)
    (cline : string) (cmd_show : Z) :
  (let o := exec h (main b argc argv app) w in
   (FOUNDATION_PLATFORM_ANDROID b = false ->
    initialize_result (trace o) = Some (fst (h main_initialize w))) /\
   (FOUNDATION_PLATFORM_ANDROID b = true ->
    0 <= fst (h (android_initialize app) w) ->
    initialize_result (trace o) =
      Some (fst (h main_initialize (snd (h (android_initialize app) w))))) /\
   forall r, initialize_result (trace o) = Some r -> 0 <= r ->
     count is_thread_set_main (trace o) = 1%nat /\
     count is_run (before is_thread_set_main (trace o)) = 0%nat) /\
  (let o := exec h (WinMain b instance previnst cline cmd_show) w in
   initialize_result (trace o) = Some (fst (h main_initialize w)) /\
   forall r, initialize_result (trace o) = Some r -> 0 <= r ->
     count is_thread_set_main (trace o) = 1%nat /\
     count is_run (before is_thread_set_main (trace o)) = 0%nat).
Proof.
  split.
  - destruct (main_reaches_main_initialize h b w argc argv app) as (Hp & Ha).
    split; [exact Hp | split; [exact Ha |]].
    intros r Hr Hpos.
    destruct (@main_after_initialize b w argc argv app _ eq_refl
                r Hr Hpos)
      as (code & bundle & _ & _ & _ & _ & _ & _ & Hone & Hrun & _).
    split; assumption.
  - split; [apply WinMain_reaches_main_initialize |].
    intros r Hr Hpos.
    destruct (@WinMain_after_initialize b w instance previnst cline
                cmd_show _ eq_refl r Hr Hpos) as (_ & _ & _ & Hone & Hrun & _).
    split; assumption.
Qed.

(** X10.  Once main_initialize has succeeded, main calls main_shutdown
    exactly once, with the run phase behind it.  After main_shutdown it
    only reads _bundle and releases it if it is set, on macOS and iOS, and
    calls android_shutdown, on Android; WinMain does nothing after
    main_shutdown. *)
Theorem shutdown_once_then_release
    (b : build) (w : W) (argc : Z) (argv app instance previnst : ptr)
    (cline : string) (cmd_show : Z) :
  (let o := exec h (main b argc argv app) w in
   forall r, initialize_result (trace o) = Some r -> 0 <= r ->
     count is_main_shutdown (trace o) = 1%nat /\
     count is_run (after is_main_shutdown (trace o)) = 0%nat /\
     exists bundle,
       after is_main_shutdown (trace o) =
         ((if FOUNDATION_PLATFORM_MACOSX b || FOUNDATION_PLATFORM_IOS b
           then Ev read__bundle bundle
                :: match bundle with
                   | Some cf => [Ev (CFRelease cf) tt]
                   | None => []
                   end
           else [])
          ++ (if FOUNDATION_PLATFORM_ANDROID b
              then [Ev android_shutdown tt]
              else []))%list) /\
  (let o := exec h (WinMain b instance previnst cline cmd_show) w in
   forall r, initialize_result (trace o) = Some r -> 0 <= r ->
     count is_main_shutdown (trace o) = 1%nat /\
     after is_main_shutdown (trace o) = []).
Proof.
  split; intros o r Hr Hpos.
  - destruct (@main_after_initialize b w argc argv app o eq_refl r Hr Hpos)
      as (code & bundle & _ & _ & _ & _ & _ & _ & _ & _ & Hone & Hrun & Htail).
    repeat split; try assumption. exists bundle. exact Htail.
  - destruct (@WinMain_after_initialize b w instance previnst cline cmd_show
                o eq_refl r Hr Hpos) as (_ & _ & _ & _ & _ & Hone & Htail).
    split; assumption.
Qed.

(** X11.  On every build other than Android, macOS and iOS included, the
    value main returns after a successful main_initialize is the value
    returned by the call that ran the application: main_run, crash_guard,
    app_main, NSApplicationMain or UIApplicationMain.  android_main returns
    nothing. *)
Theorem exit_code_on_every_build
    (b : build) (w : W) (argc : Z) (argv app : ptr) :
  let o := exec h (main b argc argv app) w in
  forall r, initialize_result (trace o) = Some r -> 0 <= r ->
    exists code,
      run_result (trace o) = Some code /\
      returned o = (if FOUNDATION_PLATFORM_ANDROID b then None else Some code).
Proof.
  intros o r Hr Hpos.
  destruct (@main_after_initialize b w argc argv app o eq_refl r Hr Hpos)
    as (code & bundle & Hcode & Hret & _).
  exists code. split; assumption.
Qed.

(** X12.  On Android, when android_initialize returns a negative value,
    android_main returns at once: main_initialize is not called, and
    nothing else is. *)
Theorem android_initialize_failure
    (b : build) (w : W) (argc : Z) (argv app : ptr) :
  FOUNDATION_PLATFORM_ANDROID b = true ->
  let o := exec h (main b argc argv app) w in
  forall r, android_initialize_result (trace o) = Some r -> r < 0 ->
    returned o = None /\
    trace o = [Ev (android_initialize app) r] /\
    initialize_result (trace o) = None.
Proof.
  every_build b; try discriminate; intros _;
    unfold main, guarded_main_run; steps h; finish;
    repeat split; reflexivity.
Qed.


(** X14.  On a Windows build that is not also a POSIX, Android, macOS or
    iOS build, main and WinMain make the same calls, leave the same world
    and return the same value. *)
Theorem main_agrees_with_WinMain
    (b : build) (w : W) (argc : Z) (argv app instance previnst : ptr)
    (cline : string) (cmd_show : Z) :
  FOUNDATION_PLATFORM_WINDOWS b = true ->
  FOUNDATION_PLATFORM_POSIX b = false ->
  FOUNDATION_PLATFORM_ANDROID b = false ->
  FOUNDATION_PLATFORM_MACOSX b = false ->
  FOUNDATION_PLATFORM_IOS b = false ->
  let m := exec h (main b argc argv app) w in
  let g := exec h (WinMain b instance previnst cline cmd_show) w in
  returned m = Some (returned g) /\
  trace m = trace g /\
  final m = final g.
Proof.
  every_build b; try discriminate; intros _ _ _ _ _;
    unfold main, WinMain, guarded_main_run; steps h;
    repeat split; reflexivity.
Qed.

(** X15.  On a build that is neither macOS nor iOS, BUILD_DEBUG changes
    the calls of the run phase only: with main_run and the calls of the
    guarded run left out, the debug and the release build of main make the
    same calls, and so do those of WinMain. *)
Theorem build_mode_changes_run_phase_only
    (windows android posix : bool) (w : W) (argc : Z)
    (argv app instance previnst : ptr) (cline : string) (cmd_show : Z) :
  (let debug :=
     exec h (main (Build windows android posix false false true)
                  argc argv app) w in
   let release :=
     exec h (main (Build windows android posix false false false)
                  argc argv app) w in
   filter (fun e => negb (is_run_phase e)) (trace debug) =
   filter (fun e => negb (is_run_phase e)) (trace release)) /\
  (let debug :=
     exec h (WinMain (Build windows android posix false false true)
                     instance previnst cline cmd_show) w in
   let release :=
     exec h (WinMain (Build windows android posix false false false)
                     instance previnst cline cmd_show) w in
   filter (fun e => negb (is_run_phase e)) (trace debug) =
   filter (fun e => negb (is_run_phase e)) (trace release)).
Proof.
  split.
  - destruct windows, android, posix;
      unfold main, guarded_main_run; steps h; reflexivity.
  - unfold WinMain, guarded_main_run; steps h; reflexivity.
Qed.

End EntryExtras.

(** ** Concrete runs for the further properties *)

Lemma console_handler_discipline_witness :
  let o := exec (scripted (demo 0 false false None))
                (_main_console_handler (hdr := sdk_headers) 77) empty_store in
  returned o = false /\
  trace o = [Ev (log_infof "Caught console control: %s (%d)"
                           "UNKNOWN" 77) tt] /\
  count is_post (trace o) = 0%nat.
Proof.
  cbv zeta. split; [reflexivity | split; [reflexivity |]].
  apply (@console_handler_discipline sdk_headers _
           (scripted (demo 0 false false None)) 77 empty_store).
  reflexivity.
Defined.

Lemma sighandler_names_and_posts_witness :
  @signal_labels_distinct sdk_headers /\
  trace (exec (scripted (demo 0 false false None))
              (sighandler (hdr := sdk_headers) 15) empty_store) =
    [Ev (log_infof "Caught signal: %s (%d)" "SIGTERM" 15) tt;
     Ev (system_post_event FOUNDATIONEVENT_TERMINATE) tt] /\
  trace (exec (scripted (demo 0 false false None))
              (sighandler (hdr := sdk_headers) 1) empty_store) =
    [Ev (log_infof "Caught signal: %s (%d)" "UNKNOWN" 1) tt;
     Ev (system_post_event FOUNDATIONEVENT_TERMINATE) tt].
Proof.
  pose proof (@sighandler_names_and_posts sdk_headers _
                (scripted (demo 0 false false None)) empty_store
                sdk_signal_labels_distinct) as (Hnamed & Hunknown).
  split; [exact sdk_signal_labels_distinct |]. split.
  - apply (Hnamed 15 "SIGTERM"). cbn. tauto.
  - apply (Hunknown 1). cbn. intuition discriminate.
Defined.

Lemma main_installs_signal_handlers_witness :
  let o := exec (scripted (demo 0 false false None))
                (main (linux_build false) 1 0 0) empty_store in
  initialize_result (trace o) = Some 0 /\
  filter is_signal_install (trace o) =
    [Ev (signal 9 FN_sighandler) tt; Ev (signal 15 FN_sighandler) tt;
     Ev (signal 3 FN_sighandler) tt; Ev (signal 2 FN_sighandler) tt;
     Ev (sigaction_SIG_IGN 13) tt] /\
  filter is_signal_install (before is_thread_set_main (trace o)) =
    filter is_signal_install (trace o).
Proof.
  cbv zeta. split; [reflexivity |].
  apply (@main_installs_signal_handlers sdk_headers _
           (scripted (demo 0 false false None)) (linux_build false)
           empty_store 1 0 0 0); [reflexivity | lia].
Defined.

Lemma console_handler_registered_witness :
  let m := exec (scripted (demo 0 false false None))
                (main (windows_build false) 1 0 0) empty_store in
  let g := exec (scripted (demo 0 false false None))
                (WinMain (windows_build false) 0 0 "cmd" 0) empty_store in
  (initialize_result (trace m) = Some 0 /\
   filter is_console_install (trace m) =
     [Ev (SetConsoleCtrlHandler FN__main_console_handler true) tt] /\
   filter is_console_install (before is_thread_set_main (trace m)) =
     filter is_console_install (trace m)) /\
  (initialize_result (trace g) = Some 0 /\
   filter is_console_install (trace g) =
     [Ev (SetConsoleCtrlHandler FN__main_console_handler true) tt] /\
   filter is_console_install (before is_thread_set_main (trace g)) =
     filter is_console_install (trace g) /\
   filter is_signal_install (trace g) = []).
Proof.
  cbv zeta.
  destruct (@console_handler_registered sdk_headers _
              (scripted (demo 0 false false None)) (windows_build false)
              empty_store 1 0 0 0 0 "cmd" 0)
    as ((Hm & _ & Hmain) & (Hg & Hwin)).
  split.
  - split; [exact (Hm eq_refl) |]. apply (Hmain 0); [reflexivity | lia].
  - split; [exact Hg |]. apply (Hwin 0); [reflexivity | lia].
Defined.

Lemma thread_set_main_once_before_run_witness :
  let m := exec (scripted (demo 0 false false None))
                (main (macosx_build true) 1 0 0) empty_store in
  let g := exec (scripted (demo 0 false false None))
                (WinMain (windows_build false) 0 0 "cmd" 0) empty_store in
  (initialize_result (trace m) = Some 0 /\
   count is_thread_set_main (trace m) = 1%nat /\
   count is_run (before is_thread_set_main (trace m)) = 0%nat) /\
  (initialize_result (trace g) = Some 0 /\
   count is_thread_set_main (trace g) = 1%nat /\
   count is_run (before is_thread_set_main (trace g)) = 0%nat).
Proof.
  cbv zeta. split.
  - destruct (proj1 (@thread_set_main_once_before_run sdk_headers _
                       (scripted (demo 0 false false None))
                       (macosx_build true) empty_store 1 0 0 0 0 "cmd" 0))
      as (Hm & _ & Hmain).
    split; [exact (Hm eq_refl) |]. apply (Hmain 0); [reflexivity | lia].
  - destruct (proj2 (@thread_set_main_once_before_run sdk_headers _
                       (scripted (demo 0 false false None))
                       (windows_build false) empty_store 1 0 0 0 0 "cmd" 0))
      as (Hg & Hwin).
    split; [exact Hg |]. apply (Hwin 0); [reflexivity | lia].
Defined.

Lemma shutdown_once_then_release_witness :
  let o := exec (scripted (demo 0 false true None))
                (main (ios_build false) 1 0 0) empty_store in
  initialize_result (trace o) = Some 0 /\
  count is_main_shutdown (trace o) = 1%nat /\
  count is_run (after is_main_shutdown (trace o)) = 0%nat /\
  exists bundle,
    after is_main_shutdown (trace o) =
      (Ev read__bundle bundle
       :: match bundle with
          | Some cf => [Ev (CFRelease cf) tt]
          | None => []
          end)%list.
Proof.
  cbv zeta. split; [reflexivity |].
  destruct (proj1 (@shutdown_once_then_release sdk_headers _
                     (scripted (demo 0 false true None)) (ios_build false)
                     empty_store 1 0 0 0 0 "cmd" 0) 0)
    as (Hone & Hrun & bundle & Htail); [reflexivity | lia |].
  repeat split; try assumption.
  exists bundle. rewrite Htail. cbn. now rewrite app_nil_r.
Defined.

Lemma exit_code_on_every_build_witness :
  let o := exec (scripted (demo 0 false false None))
                (main (macosx_build false) 1 0 0) empty_store in
  initialize_result (trace o) = Some 0 /\
  exists code,
    run_result (trace o) = Some code /\ returned o = Some code.
Proof.
  cbv zeta. split; [reflexivity |].
  apply (@exit_code_on_every_build sdk_headers _
           (scripted (demo 0 false false None)) (macosx_build false)
           empty_store 1 0 0 0); [reflexivity | lia].
Defined.

Lemma android_initialize_failure_witness :
  let o := exec (scripted (@Script sdk_headers (-1) 0 7 8 9 10 false false
                             (demo_application None) (fun _ => "1.7.0")
                             (640, 0) None 0 None false))
                (main (android_build false) 0 0 4242) empty_store in
  android_initialize_result (trace o) = Some (-1) /\
  returned o = None /\
  trace o = [Ev (android_initialize 4242) (-1)] /\
  initialize_result (trace o) = None.
Proof.
  cbv zeta. split; [reflexivity |].
  apply (@android_initialize_failure sdk_headers _
           (scripted (@Script sdk_headers (-1) 0 7 8 9 10 false false
                        (demo_application None) (fun _ => "1.7.0")
                        (640, 0) None 0 None false))
           (android_build false) empty_store 0 0 4242 eq_refl (-1));
    [reflexivity | lia].
Defined.


Lemma main_agrees_with_WinMain_witness :
  let m := exec (scripted (demo 0 false false (Some 99)))
                (main (windows_build false) 1 0 0) empty_store in
  let g := exec (scripted (demo 0 false false (Some 99)))
                (WinMain (windows_build false) 0 0 "cmd" 0) empty_store in
  returned m = Some (returned g) /\ trace m = trace g /\ final m = final g.
Proof.
  apply (@main_agrees_with_WinMain sdk_headers _
           (scripted (demo 0 false false (Some 99))) (windows_build false)
           empty_store 1 0 0 0 0 "cmd" 0 eq_refl eq_refl eq_refl eq_refl
           eq_refl).
Defined.
